(** * TG_bot: the per-user session state machine

    A shallow embedding of the bot's session store ([state.py]), action
    resolver ([keyboard_utils.py]), navigation engine
    ([navigation_handler.py]) and input-mode router ([text_handlers.py],
    [main_bot.py]), and the properties of the specification settled on it.

    Conventions.
    - A Python [dict] is a [gmap], the [set] of waiting users a [gset].
    - A navigation stack is a Python list: the top of the stack is its LAST
      element ([append] adds at the end, [pop] removes the end, [[-1]] reads
      it).
    - The remote gateway ([api_client.py]) turns every transport failure into
      [None]; one handler run calls each gateway method at most once, so a
      run is a function of one [gateway] record of answers.
    - The chat transport is a log of outgoing messages.
    - A handler runs from its first to its last statement without another
      handler of the same user in between. *)

From Stdlib Require Import ZArith String Ascii DecimalString.
From stdpp Require Import gmap strings list fin_maps.

Open Scope Z_scope.

(** ** Text *)

(** Python's [str.strip()], [str.lower()] and
    [unicodedata.normalize("NFKC", _)] are library functions; the model is
    parametric in them, so every general theorem below holds for CPython's
    own. *)
Class TextOps := {
  str_strip : string → string;
  str_lower : string → string;
  unicode_nfkc : string → string
}.

(** [str(n)] of a Python int, as an f-string prints it. *)
Definition py_str (n : Z) : string := NilZero.string_of_int (Z.to_int n).

(** A string or [None] formatted inside an f-string: [None] prints as the
    text [None]. *)
Definition py_format (v : option string) : string := default "None" v.

Definition nl : string := String (ascii_of_nat 10) EmptyString.

(** Membership of a pattern in a text, for reading the outgoing messages. *)
Fixpoint contains (p s : string) : bool :=
  String.prefix p s ||
  match s with
  | EmptyString => false
  | String _ r => contains p r
  end.

(** *** A fragment of CPython's text functions

    For the closed examples: UTF-8 byte strings whose characters are ASCII,
    basic Cyrillic letters, symbols without case and without decomposition
    (the emoji of the labels), or one of the three compatibility characters
    of [nfkc_fragment]. On such strings the three functions below return
    what CPython returns. *)

Definition byte_in (lo hi : nat) (c : ascii) : bool :=
  let n := nat_of_ascii c in ((lo <=? n) && (n <=? hi))%nat.

Definition shift_byte (f : nat → nat) (c : ascii) : ascii :=
  ascii_of_nat (f (nat_of_ascii c)).

(** ASCII white space as [str.isspace] has it: TAB..CR, FS..US and SPACE. *)
Definition is_ascii_space (c : ascii) : bool :=
  byte_in 9 13 c || byte_in 28 32 c.

Fixpoint lstrip_fragment (s : string) : string :=
  match s with
  | EmptyString => EmptyString
  | String c r => if is_ascii_space c then lstrip_fragment r else s
  end.

Fixpoint rstrip_fragment (s : string) : string :=
  match s with
  | EmptyString => EmptyString
  | String c r =>
      match rstrip_fragment r with
      | EmptyString => if is_ascii_space c then EmptyString else String c EmptyString
      | r' => String c r'
      end
  end.

Definition strip_fragment (s : string) : string :=
  rstrip_fragment (lstrip_fragment s).

Definition lower_ascii (c : ascii) : ascii :=
  if byte_in 65 90 c then shift_byte (λ n, n + 32)%nat c else c.

(** Lower-casing: ASCII capitals, and the Cyrillic capitals U+0410..U+042F
    and U+0401, which UTF-8 writes as the lead byte D0 and one more byte. *)
Fixpoint lower_fragment (s : string) : string :=
  match s with
  | EmptyString => EmptyString
  | String a r =>
      match r with
      | String b r' =>
          if byte_in 208 208 a then
            if byte_in 144 159 b then
              String a (String (shift_byte (λ n, n + 32)%nat b) (lower_fragment r'))
            else if byte_in 160 175 b then
              String (ascii_of_nat 209)
                (String (shift_byte (λ n, n - 32)%nat b) (lower_fragment r'))
            else if byte_in 129 129 b then
              String (ascii_of_nat 209) (String (ascii_of_nat 145) (lower_fragment r'))
            else String a (String b (lower_fragment r'))
          else String (lower_ascii a) (lower_fragment r)
      | EmptyString => String (lower_ascii a) EmptyString
      end
  end.

(** NFKC on the fragment: U+2121 TELEPHONE SIGN (E2 84 A1) becomes [TEL],
    U+2122 TRADE MARK SIGN (E2 84 A2) becomes [TM], U+FB01 LATIN SMALL
    LIGATURE FI (EF AC 81) becomes [fi]; the other characters of the
    fragment are their own normal form. *)
Fixpoint nfkc_fragment (s : string) : string :=
  match s with
  | EmptyString => EmptyString
  | String a t =>
      match t with
      | String b (String c r) =>
          if byte_in 226 226 a && byte_in 132 132 b && byte_in 161 161 c then
            "TEL" +:+ nfkc_fragment r
          else if byte_in 226 226 a && byte_in 132 132 b && byte_in 162 162 c then
            "TM" +:+ nfkc_fragment r
          else if byte_in 239 239 a && byte_in 172 172 b && byte_in 129 129 c then
            "fi" +:+ nfkc_fragment r
          else String a (nfkc_fragment t)
      | _ => String a (nfkc_fragment t)
      end
  end.

Definition cpython_fragment : TextOps := {|
  str_strip := strip_fragment;
  str_lower := lower_fragment;
  unicode_nfkc := nfkc_fragment
|}.

(** ** Data model *)

(** The values the label index and the navigation stacks hold. Python keeps
    them untyped: an [int] is a content node id, and the strings
    ["support_menu"], ["new_conversation"], ["list_conversations"],
    ["ticket:<id>"], ["back"] and ["home"] are the logical actions. *)
Inductive nav_action :=
  | NodeId (n : Z)
  | Support
  | NewConversation
  | ListConversations
  | Ticket (id : Z)
  | Back
  | Home.

#[global] Instance nav_action_eq_dec : EqDecision nav_action.
Proof. solve_decision. Defined.

(** A child button of a content node; both fields may be missing. *)
Record button := {
  btn_text : option string;
  next_node_id : option Z
}.

Record content_node := {
  node_id : Z;
  node_text : option string;
  node_title : option string;
  images : list string;
  buttons : list button
}.

(** The answer of [get_content_node]: a JSON object that may lack ["node"]. *)
Record node_response := { resp_node : option content_node }.

(** A ticket as the gateway lists it. The code reads ["conversation_name"]
    with [dict.get]: the key may be missing ([None]), hold JSON null
    ([Some None]) or hold a string. *)
Record ticket := {
  ticket_id : Z;
  conversation_name : option (option string)
}.

Record message := {
  sender_id : Z;
  created_at : string;
  msg_text : string
}.

Record login_data := { token : string }.
Record create_response := { created_ticket_id : option Z }.
Record send_response := { status : option string }.

(** One answer per gateway method; [None] is what [ApiClient] returns after
    an HTTP status error or a request error. [get_content_node] formats its
    argument into the URL, so it accepts any stack entry. *)
Record gateway := {
  login : string → string → Z → option login_data;
  get_root_node : option content_node;
  get_content_node : nav_action → option node_response;
  get_user_tickets : option (list ticket);
  create_ticket : Z → bool → string → option create_response;
  get_ticket_messages : Z → option (list message);
  send_message_to_conversation : Z → string → option send_response
}.

(** A reply keyboard: rows of button labels. *)
Definition keyboard := list (list string).

Inductive outgoing :=
  | SendPhoto (url : string)
  | SendMessage (text : string) (reply_markup : option keyboard).

(** [state.py], with the label index of [keyboard_utils.py] and the token
    [ApiClient.login] stores. *)
Record state := {
  user_nav_stack : gmap Z (list nav_action);
  waiting_for_message : gset Z;
  user_ticket_id : gmap Z Z;
  creating_conversation : gmap Z bool;
  awaiting_username : gmap Z bool;
  awaiting_password : gmap Z string;
  normalized_button_actions : gmap string nav_action;
  api_token : option string
}.

Definition initial_state : state := {|
  user_nav_stack := ∅;
  waiting_for_message := ∅;
  user_ticket_id := ∅;
  creating_conversation := ∅;
  awaiting_username := ∅;
  awaiting_password := ∅;
  normalized_button_actions := ∅;
  api_token := None
|}.

(** ** Handlers: state passing with a log of outgoing messages *)

Definition Handler (A : Type) : Type := state → A * state * list outgoing.

Definition ret {A} (a : A) : Handler A := λ s, (a, s, []).

Definition bind {A B} (m : Handler A) (k : A → Handler B) : Handler B :=
  λ s, let '(a, s1, o1) := m s in
       let '(b, s2, o2) := k a s1 in
       (b, s2, o1 ++ o2).

Declare Scope handler_scope.
Delimit Scope handler_scope with handler.
Bind Scope handler_scope with Handler.
Notation "x <- m ;; k" := (bind m (λ x, k))
  (at level 100, m at next level, right associativity) : handler_scope.
Notation "m ;; k" := (bind m (λ _, k))
  (at level 100, right associativity) : handler_scope.
Open Scope handler_scope.

Definition gets {A} (f : state → A) : Handler A := λ s, (f s, s, []).
Definition modify (f : state → state) : Handler unit := λ s, (tt, f s, []).
Definition emit (o : outgoing) : Handler unit := λ s, (tt, s, [o]).

Definition exec {A} (m : Handler A) (s : state) : state := (m s).1.2.
Definition sent {A} (m : Handler A) (s : state) : list outgoing := (m s).2.

Fixpoint for_each {A} (l : list A) (body : A → Handler unit) : Handler unit :=
  match l with
  | [] => ret tt
  | x :: r => body x ;; for_each r body
  end.

(** Field updates of the session store. *)
Definition with_nav_stack (f : gmap Z (list nav_action) → gmap Z (list nav_action))
    (s : state) : state :=
  {| user_nav_stack := f (user_nav_stack s);
     waiting_for_message := waiting_for_message s;
     user_ticket_id := user_ticket_id s;
     creating_conversation := creating_conversation s;
     awaiting_username := awaiting_username s;
     awaiting_password := awaiting_password s;
     normalized_button_actions := normalized_button_actions s;
     api_token := api_token s |}.

Definition with_waiting (f : gset Z → gset Z) (s : state) : state :=
  {| user_nav_stack := user_nav_stack s;
     waiting_for_message := f (waiting_for_message s);
     user_ticket_id := user_ticket_id s;
     creating_conversation := creating_conversation s;
     awaiting_username := awaiting_username s;
     awaiting_password := awaiting_password s;
     normalized_button_actions := normalized_button_actions s;
     api_token := api_token s |}.

Definition with_ticket_id (f : gmap Z Z → gmap Z Z) (s : state) : state :=
  {| user_nav_stack := user_nav_stack s;
     waiting_for_message := waiting_for_message s;
     user_ticket_id := f (user_ticket_id s);
     creating_conversation := creating_conversation s;
     awaiting_username := awaiting_username s;
     awaiting_password := awaiting_password s;
     normalized_button_actions := normalized_button_actions s;
     api_token := api_token s |}.

Definition with_creating (f : gmap Z bool → gmap Z bool) (s : state) : state :=
  {| user_nav_stack := user_nav_stack s;
     waiting_for_message := waiting_for_message s;
     user_ticket_id := user_ticket_id s;
     creating_conversation := f (creating_conversation s);
     awaiting_username := awaiting_username s;
     awaiting_password := awaiting_password s;
     normalized_button_actions := normalized_button_actions s;
     api_token := api_token s |}.

Definition with_awaiting_username (f : gmap Z bool → gmap Z bool) (s : state) : state :=
  {| user_nav_stack := user_nav_stack s;
     waiting_for_message := waiting_for_message s;
     user_ticket_id := user_ticket_id s;
     creating_conversation := creating_conversation s;
     awaiting_username := f (awaiting_username s);
     awaiting_password := awaiting_password s;
     normalized_button_actions := normalized_button_actions s;
     api_token := api_token s |}.

Definition with_awaiting_password (f : gmap Z string → gmap Z string) (s : state) : state :=
  {| user_nav_stack := user_nav_stack s;
     waiting_for_message := waiting_for_message s;
     user_ticket_id := user_ticket_id s;
     creating_conversation := creating_conversation s;
     awaiting_username := awaiting_username s;
     awaiting_password := f (awaiting_password s);
     normalized_button_actions := normalized_button_actions s;
     api_token := api_token s |}.

Definition with_actions (f : gmap string nav_action → gmap string nav_action)
    (s : state) : state :=
  {| user_nav_stack := user_nav_stack s;
     waiting_for_message := waiting_for_message s;
     user_ticket_id := user_ticket_id s;
     creating_conversation := creating_conversation s;
     awaiting_username := awaiting_username s;
     awaiting_password := awaiting_password s;
     normalized_button_actions := f (normalized_button_actions s);
     api_token := api_token s |}.

Definition with_token (t : option string) (s : state) : state :=
  {| user_nav_stack := user_nav_stack s;
     waiting_for_message := waiting_for_message s;
     user_ticket_id := user_ticket_id s;
     creating_conversation := creating_conversation s;
     awaiting_username := awaiting_username s;
     awaiting_password := awaiting_password s;
     normalized_button_actions := normalized_button_actions s;
     api_token := t |}.

(** [user_nav_stack.setdefault(user_id, []).append(entry)] *)
Definition stack_append (user_id : Z) (entry : nav_action)
    (m : gmap Z (list nav_action)) : gmap Z (list nav_action) :=
  <[user_id := default [] (m !! user_id) ++ [entry]]> m.

(** [bot.send_message(user_id, text, reply_markup=...)] and
    [message.answer(text, reply_markup=...)]: both write to the chat of the
    user the handler runs for. *)
Definition send_message (text : string) (reply_markup : option keyboard) : Handler unit :=
  emit (SendMessage text reply_markup).

(** [bot.send_photo] inside [try/except]: a failed send is logged and the
    handler goes on, so the model records the attempt. *)
Definition send_photo (url : string) : Handler unit := emit (SendPhoto url).

(** ** keyboard_utils.py *)

Definition back_button_text : string := "⬅️ Назад".
Definition home_button_text : string := "🏠 В начало".
Definition support_button_text : string := "✉ Написать в поддержку".
Definition new_conv : string := "➕ Новая беседа".
Definition my_conv : string := "📂 Мои беседы".

(** aiogram's [markup.add], given buttons, starts a row after every [row_width]
    (three) buttons; every call of this program passes one or two buttons,
    which make one row, and no button makes none. *)
Definition markup_add (markup : keyboard) (row : list string) : keyboard :=
  match row with
  | [] => markup
  | _ => markup ++ [row]
  end.

Section KeyboardUtils.
Context {T : TextOps}.

Definition normalize_text (text : string) : string :=
  unicode_nfkc (str_lower (str_strip text)).

(** The loop of [make_keyboard] from index [i] on; [count] is
    [len(children_buttons)]. The accumulator is the markup, the row being
    filled, and the label index. *)
Fixpoint keyboard_rows (count i : nat) (children_buttons : list button)
    (acc : keyboard * list string * gmap string nav_action)
    : keyboard * list string * gmap string nav_action :=
  match children_buttons with
  | [] => acc
  | button_data :: rest =>
      let '(markup, current_row_buttons, actions) := acc in
      let text := default "Неизвестно" (btn_text button_data) in
      keyboard_rows count (S i) rest
        match next_node_id button_data with
        | Some node_id_for_button =>
            let current_row_buttons := current_row_buttons ++ [text] in
            let actions := <[normalize_text text := NodeId node_id_for_button]> actions in
            if decide (length current_row_buttons = 2%nat ∨ i = (count - 1)%nat)
            then (markup_add markup current_row_buttons, [], actions)
            else (markup, current_row_buttons, actions)
        | None => acc
        end
  end.

Definition make_keyboard (current_node_id : nav_action) (current_node_data : content_node)
    (is_root : bool) : Handler keyboard :=
  let children_buttons := buttons current_node_data in
  actions <- gets normalized_button_actions ;;
  let '(markup, _, actions) :=
    keyboard_rows (length children_buttons) 0 children_buttons ([], [], actions) in
  let actions := <[normalize_text support_button_text := Support]> actions in
  let markup := markup_add markup [support_button_text] in
  if is_root then
    modify (with_actions (λ _, actions)) ;; ret markup
  else
    let actions := <[normalize_text back_button_text := Back]> actions in
    let actions := <[normalize_text home_button_text := Home]> actions in
    let markup := markup_add markup [back_button_text; home_button_text] in
    modify (with_actions (λ _, actions)) ;; ret markup.

Definition build_ticket_chat_keyboard : Handler keyboard :=
  let markup := markup_add [] [back_button_text; home_button_text] in
  modify (with_actions (λ actions,
    <[normalize_text home_button_text := Home]>
      (<[normalize_text back_button_text := Back]> actions))) ;;
  ret markup.

Definition build_support_menu_keyboard : Handler keyboard :=
  let markup := markup_add [] [new_conv] in
  let markup := markup_add markup [my_conv] in
  let markup := markup_add markup [back_button_text; home_button_text] in
  modify (with_actions (λ actions,
    <[normalize_text home_button_text := Home]>
      (<[normalize_text back_button_text := Back]>
        (<[normalize_text my_conv := ListConversations]>
          (<[normalize_text new_conv := NewConversation]> actions))))) ;;
  ret markup.

(** The loop of [build_user_tickets_keyboard]: one row and one index entry
    per ticket. [t.get("conversation_name", default)] gives the default only
    when the key is missing; a null name is kept and printed as [None]. *)
Fixpoint ticket_rows (tickets : list ticket)
    (acc : keyboard * gmap string nav_action) : keyboard * gmap string nav_action :=
  match tickets with
  | [] => acc
  | t :: rest =>
      let '(markup, actions) := acc in
      let title :=
        default (Some ("Беседа #" +:+ py_str (ticket_id t))) (conversation_name t) in
      let button_text := "💬 " +:+ py_format title in
      ticket_rows rest
        (markup_add markup [button_text],
         <[normalize_text button_text := Ticket (ticket_id t)]> actions)
  end.

Definition build_user_tickets_keyboard (tickets : list ticket) : Handler keyboard :=
  actions <- gets normalized_button_actions ;;
  let '(markup, actions) := ticket_rows tickets ([], actions) in
  let markup := markup_add markup [back_button_text; home_button_text] in
  modify (with_actions (λ _,
    <[normalize_text home_button_text := Home]>
      (<[normalize_text back_button_text := Back]> actions))) ;;
  ret markup.

End KeyboardUtils.

(** ** navigation_handler.py and text_handlers.py *)

(** Truth of [api.token]: [None] and the empty string are false. *)
Definition token_missing (t : option string) : bool :=
  match t with
  | None => true
  | Some t => bool_decide (t = EmptyString)
  end.

Section Handlers.
Context {T : TextOps} (api : gateway).

(** The part of [show_main_menu] after the root data is known. *)
Definition render_main_menu (user_id : Z) (root_node_data : content_node)
    : Handler unit :=
  markup <- make_keyboard (NodeId (node_id root_node_data)) root_node_data true ;;
  for_each (images root_node_data) send_photo ;;
  send_message (default "Выберите раздел:" (node_text root_node_data)) (Some markup).

Definition show_main_menu (user_id : Z) (root_node_data : option content_node)
    : Handler unit :=
  match root_node_data with
  | Some root_node_data => render_main_menu user_id root_node_data
  | None =>
      tok <- gets api_token ;;
      if token_missing tok then
        send_message "Ошибка: пользователь не аутентифицирован. Попробуйте /start." None
      else
        match get_root_node api with
        | None =>
            send_message
              "Не удалось загрузить главное меню. Возможно, проблема с аутентификацией."
              None
        | Some root_node_data =>
            modify (with_nav_stack <[user_id := [NodeId (node_id root_node_data)]]>) ;;
            render_main_menu user_id root_node_data
        end
  end.

Definition reset_to_root_menu (user_id : Z) : Handler unit :=
  match get_root_node api with
  | Some root_node_data =>
      modify (with_nav_stack <[user_id := [NodeId (node_id root_node_data)]]>) ;;
      show_main_menu user_id (Some root_node_data)
  | None => send_message "Не удалось загрузить главное меню." None
  end.

Definition open_support_menu (user_id : Z) (back : bool) : Handler unit :=
  (if back then ret tt
   else modify (with_nav_stack (stack_append user_id Support))) ;;
  support_keyboard <- build_support_menu_keyboard ;;
  send_message "Выберите действие:" (Some support_keyboard).

Definition request_new_conversation (user_id : Z) : Handler unit :=
  modify (with_creating <[user_id := true]>) ;;
  send_message "Введите название новой беседы:" None.

Definition show_user_conversations (user_id : Z) (back : bool) : Handler unit :=
  (if back then ret tt
   else modify (with_nav_stack (stack_append user_id ListConversations))) ;;
  match get_user_tickets api with
  | Some (t :: rest) =>
      markup <- build_user_tickets_keyboard (t :: rest) ;;
      send_message "Ваши беседы:" (Some markup)
  | _ => send_message "У вас нет бесед." None
  end.

(** [action] is the string ["ticket:<ticket_id>"], which the handler splits
    at the colon. *)
Definition show_ticket_messages (user_id : Z) (ticket_id : Z) (back : bool)
    : Handler unit :=
  let messages := get_ticket_messages api ticket_id in
  (if back then ret tt
   else modify (with_nav_stack (stack_append user_id (Ticket ticket_id)))) ;;
  match messages with
  | Some (m0 :: rest) =>
      send_message ("💬 Сообщения в беседе #" +:+ py_str ticket_id +:+ ":") None ;;
      for_each (m0 :: rest) (λ m,
        let sender := if decide (sender_id m = user_id) then "Вы" else "Менеджер" in
        send_message
          ("🕒 " +:+ created_at m +:+ nl +:+ "👤 " +:+ sender +:+ ":" +:+ nl +:+ msg_text m)
          None)
  | _ => send_message "Беседа пуста." None
  end ;;
  modify (with_ticket_id <[user_id := ticket_id]>) ;;
  modify (with_waiting (λ w, {[user_id]} ∪ w)) ;;
  markup <- build_ticket_chat_keyboard ;;
  send_message "✏️ Напишите новое сообщение:" (Some markup).

Definition navigate_content_node (user_id : Z) (node_id : nav_action) (back : bool)
    : Handler unit :=
  let node_data_response := get_content_node api node_id in
  let node_data :=
    match node_data_response with
    | Some r => resp_node r
    | None => None
    end in
  match node_data with
  | None =>
      send_message "Не удалось найти информацию по этому разделу. Попробуйте позже." None
  | Some node_data =>
      stack <- gets user_nav_stack ;;
      let has_children_buttons := negb (bool_decide (buttons node_data = [])) in
      let is_root := bool_decide (stack !! user_id = Some [node_id]) in
      if has_children_buttons then
        (if negb back &&
            (bool_decide (default [] (stack !! user_id) = []) ||
             negb (bool_decide (last (default [] (stack !! user_id)) = Some node_id)))
         then modify (with_nav_stack (stack_append user_id node_id))
         else ret tt) ;;
        markup <- make_keyboard node_id node_data is_root ;;
        for_each (images node_data) send_photo ;;
        send_message (default "Раздел" (node_text node_data)) (Some markup)
      else
        send_message
          ("📌 " +:+ default EmptyString (node_title node_data) +:+ nl +:+ nl
             +:+ default EmptyString (node_text node_data))
          None
  end.

(** The tests of the source in their order; a value that is none of the
    seven cannot be built here, so its last line (the "unknown navigation
    action" notice) has no case. *)
Definition handle_navigation_actions (user_id : Z) (action : nav_action) (back : bool)
    : Handler unit :=
  match action with
  | Support => open_support_menu user_id back
  | NewConversation => request_new_conversation user_id
  | ListConversations => show_user_conversations user_id back
  | Ticket ticket_id => show_ticket_messages user_id ticket_id back
  | Back =>
      stack <- gets user_nav_stack ;;
      if decide (1 < length (default [] (stack !! user_id)))%nat then
        let l := default [] (stack !! user_id) in
        modify (with_nav_stack <[user_id := removelast l]>) ;;
        match last (removelast l) with
        | Some node_id => navigate_content_node user_id node_id true
        | None => ret tt (* not reached: an element is left *)
        end
      else reset_to_root_menu user_id
  | Home => reset_to_root_menu user_id
  | NodeId n => navigate_content_node user_id (NodeId n) back
  end.

Definition handle_username_input (text : string) (user_id : Z) : Handler unit :=
  modify (with_awaiting_username (delete user_id)) ;;
  modify (with_awaiting_password <[user_id := str_strip text]>) ;;
  send_message "Введите ваш пароль:" None.

Definition handle_password_input (text : string) (user_id : Z) : Handler unit :=
  pending <- gets awaiting_password ;;
  match pending !! user_id with
  | None => ret tt (* not reached: the router tests the key first *)
  | Some username =>
      modify (with_awaiting_password (delete user_id)) ;;
      let password := str_strip text in
      match login api username password user_id with
      | Some data =>
          modify (with_token (Some (token data))) ;;
          reset_to_root_menu user_id
      | None => send_message "Неверные учетные данные. Попробуйте снова с /start." None
      end
  end.

Definition handle_back_action (user_id : Z) : Handler unit :=
  stack <- gets user_nav_stack ;;
  if decide (1 < length (default [] (stack !! user_id)))%nat then
    let l := default [] (stack !! user_id) in
    modify (with_nav_stack <[user_id := removelast l]>) ;;
    match last (removelast l) with
    | Some previous_action =>
        modify (with_waiting (λ w, w ∖ {[user_id]})) ;;
        modify (with_ticket_id (delete user_id)) ;;
        handle_navigation_actions user_id previous_action true
    | None => ret tt (* not reached: an element is left *)
    end
  else
    modify (with_waiting (λ w, w ∖ {[user_id]})) ;;
    modify (with_ticket_id (delete user_id)) ;;
    reset_to_root_menu user_id.

Definition handle_home_action (user_id : Z) : Handler unit :=
  modify (with_waiting (λ w, w ∖ {[user_id]})) ;;
  modify (with_ticket_id (delete user_id)) ;;
  reset_to_root_menu user_id.

Definition handle_conversation_creation (text : string) (user_id : Z) : Handler unit :=
  let title := str_strip text in
  let ticket_response := create_ticket api user_id true title in
  modify (with_creating (delete user_id)) ;;
  match ticket_response with
  | Some {| created_ticket_id := Some _ |} =>
      let tickets := get_user_tickets api in
      modify (with_nav_stack (stack_append user_id ListConversations)) ;;
      markup <- build_user_tickets_keyboard (default [] tickets) ;;
      send_message
        ("✅ Беседа «" +:+ title +:+ "» создана. Выберите её из списка, чтобы продолжить.")
        (Some markup)
  | _ => send_message "Не удалось создать беседу. Попробуйте позже." None
  end.

(** [if ticket_id:] is false for a missing entry and for the id [0]. *)
Definition handle_send_message (text : string) (user_id : Z) : Handler unit :=
  tickets <- gets user_ticket_id ;;
  match tickets !! user_id with
  | Some ticket_id =>
      if decide (ticket_id = 0) then
        send_message "Нет выбранной беседы. Выберите её из списка." None
      else
        match send_message_to_conversation api ticket_id text with
        | Some {| status := Some st |} =>
            if decide (st = "success") then
              markup <- build_ticket_chat_keyboard ;;
              send_message "✅ Сообщение отправлено." (Some markup)
            else send_message "Не удалось отправить сообщение. Попробуйте позже." None
        | _ => send_message "Не удалось отправить сообщение. Попробуйте позже." None
        end
  | None => send_message "Нет выбранной беседы. Выберите её из списка." None
  end.

Definition handle_navigation_or_fallback (user_id : Z) (user_text : string)
    : Handler unit :=
  actions <- gets normalized_button_actions ;;
  match actions !! user_text with
  | None => send_message "Неизвестная команда. Используйте кнопки." None
  | Some action => handle_navigation_actions user_id action false
  end.

Definition text_message_handler (user_id : Z) (text : string) : Handler unit :=
  let user_text := normalize_text text in
  s <- gets id ;;
  if decide (is_Some (awaiting_username s !! user_id)) then
    handle_username_input text user_id
  else if decide (is_Some (awaiting_password s !! user_id)) then
    handle_password_input text user_id
  else if decide (user_text = normalize_text back_button_text) then
    handle_back_action user_id
  else if decide (user_text = normalize_text home_button_text) then
    handle_home_action user_id
  else if decide (is_Some (creating_conversation s !! user_id)) then
    handle_conversation_creation text user_id
  else if decide (user_id ∈ waiting_for_message s) then
    handle_send_message text user_id
  else
    handle_navigation_or_fallback user_id user_text.

End Handlers.

(** [main_bot.py]: the [/start] command. *)
Definition start_handler (user_id : Z) : Handler unit :=
  modify (with_awaiting_username <[user_id := true]>) ;;
  send_message "Введите ваше имя пользователя:" None.

(** ** The transition system *)

(** What the transport delivers: the [/start] command or a text message. *)
Inductive event :=
  | Start (user_id : Z)
  | Text (user_id : Z) (text : string).

Definition handle {T : TextOps} (api : gateway) (ev : event) : Handler unit :=
  match ev with
  | Start user_id => start_handler user_id
  | Text user_id text => text_message_handler api user_id text
  end.

(** The states the bot can be in: any sequence of events, each served with
    any answers of the gateway. *)
Inductive reachable {T : TextOps} : state → Prop :=
  | reachable_initial : reachable initial_state
  | reachable_step s api ev : reachable s → reachable (exec (handle api ev) s).

Fixpoint run {T : TextOps} (trace : list (gateway * event)) (s : state) : state :=
  match trace with
  | [] => s
  | (api, ev) :: rest => run rest (exec (handle api ev) s)
  end.

(** The branch the router of [text_message_handler] takes. *)
Inductive route :=
  | ToUsername
  | ToPassword
  | ToBack
  | ToHome
  | ToConversationCreation
  | ToSendMessage
  | ToNavigation.

Definition first_match (tests : list (bool * route)) : route :=
  default ToNavigation (snd <$> head (filter (λ t, fst t = true) tests)).

(** The priority list as the specification gives it. *)
Definition router_spec {T : TextOps} (s : state) (user_id : Z) (text : string) : route :=
  first_match
    [ (bool_decide (is_Some (awaiting_username s !! user_id)), ToUsername);
      (bool_decide (is_Some (awaiting_password s !! user_id)), ToPassword);
      (bool_decide (normalize_text text = normalize_text back_button_text), ToBack);
      (bool_decide (normalize_text text = normalize_text home_button_text), ToHome);
      (bool_decide (is_Some (creating_conversation s !! user_id)), ToConversationCreation);
      (bool_decide (user_id ∈ waiting_for_message s), ToSendMessage) ].

Definition run_route {T : TextOps} (api : gateway) (r : route) (user_id : Z)
    (text : string) : Handler unit :=
  match r with
  | ToUsername => handle_username_input text user_id
  | ToPassword => handle_password_input api text user_id
  | ToBack => handle_back_action api user_id
  | ToHome => handle_home_action api user_id
  | ToConversationCreation => handle_conversation_creation api text user_id
  | ToSendMessage => handle_send_message api text user_id
  | ToNavigation => handle_navigation_or_fallback api user_id (normalize_text text)
  end.


(** ** Reading the specification *)

Definition result {A} (m : Handler A) (s : state) : A := (m s).1.1.

(** The session without the label index: what a keyboard builder leaves
    alone. *)
Definition forget_actions (s : state) : state := with_actions (λ _, ∅) s.

(** [normalize] in the order the specification lists its steps: compatibility
    normal form, then trim, then lower case. *)
Definition normalize_spec {T : TextOps} (text : string) : string :=
  str_lower (str_strip (unicode_nfkc text)).

(** Rows of two with at most one dangling last element. *)
Fixpoint pairs_of {A} (l : list A) : list (list A) :=
  match l with
  | [] => []
  | [a] => [[a]]
  | a :: b :: r => [a; b] :: pairs_of r
  end.

Definition button_label (b : button) : string := default "Неизвестно" (btn_text b).

(** The child buttons that link to a node: their labels, and the index
    entries they write, in the order of the node. *)
Definition linked_labels (bs : list button) : list string :=
  omap (λ b, (λ _, button_label b) <$> next_node_id b) bs.

Definition index_writes {T : TextOps} (bs : list button) : list (string * nav_action) :=
  omap (λ b, (λ n, (normalize_text (button_label b), NodeId n)) <$> next_node_id b) bs.

(** The rows and writes every content keyboard ends with. *)
Definition fixed_rows (is_root : bool) : keyboard :=
  [support_button_text] ::
  (if is_root then [] else [[back_button_text; home_button_text]]).

Definition fixed_writes {T : TextOps} (is_root : bool) : list (string * nav_action) :=
  (normalize_text support_button_text, Support) ::
  (if is_root then []
   else [(normalize_text back_button_text, Back); (normalize_text home_button_text, Home)]).

Definition write_all (writes : list (string * nav_action))
    (actions : gmap string nav_action) : gmap string nav_action :=
  foldl (λ m kv, <[kv.1 := kv.2]> m) actions writes.

(** A message that tells the user a request failed: every such text of the
    program says "could not" or "try". *)
Definition try_later_notice (o : outgoing) : bool :=
  match o with
  | SendMessage text _ => contains "Не удалось" text || contains "Попробуйте" text
  | SendPhoto _ => false
  end.

(** The handler, run from [s], tells the user that a request failed. *)
Definition reports_failure {A} (m : Handler A) (s : state) : bool :=
  existsb try_later_notice (sent m s).

Definition stack_of (s : state) (user_id : Z) : list nav_action :=
  default [] (user_nav_stack s !! user_id).

(** ** A sample catalog and sample conversations *)

Definition leaf_item : content_node := {|
  node_id := 7; node_text := Some "Description"; node_title := Some "Item";
  images := []; buttons := []
|}.

Definition menu_catalog : content_node := {|
  node_id := 5; node_text := Some "Catalog menu"; node_title := Some "Catalog";
  images := [];
  buttons := [ {| btn_text := Some "Item"; next_node_id := Some 7 |} ]
|}.

Definition menu_root : content_node := {|
  node_id := 1; node_text := Some "Main menu"; node_title := Some "Root";
  images := [];
  buttons := [ {| btn_text := Some "Catalog"; next_node_id := Some 5 |} ]
|}.

(** A node with a button that links nowhere between two that do. *)
Definition menu_mixed : content_node := {|
  node_id := 9; node_text := Some "Mixed"; node_title := None; images := [];
  buttons := [ {| btn_text := Some "A"; next_node_id := Some 1 |};
               {| btn_text := Some "B"; next_node_id := None |};
               {| btn_text := Some "C"; next_node_id := Some 3 |} ]
|}.

(** A node whose last button links nowhere, after one that does. *)
Definition menu_trailing_unlinked : content_node := {|
  node_id := 11; node_text := Some "Trailing"; node_title := None; images := [];
  buttons := [ {| btn_text := Some "A"; next_node_id := Some 1 |};
               {| btn_text := Some "B"; next_node_id := None |} ]
|}.

Definition online_gateway : gateway := {|
  login := λ _ _ _, Some {| token := "secret-token" |};
  get_root_node := Some menu_root;
  get_content_node := λ a,
    if decide (a = NodeId 1) then Some {| resp_node := Some menu_root |}
    else if decide (a = NodeId 5) then Some {| resp_node := Some menu_catalog |}
    else if decide (a = NodeId 7) then Some {| resp_node := Some leaf_item |}
    else None;
  get_user_tickets :=
    Some [ {| ticket_id := 0; conversation_name := Some (Some "First") |} ];
  create_ticket := λ _ _ _, Some {| created_ticket_id := Some 0 |};
  get_ticket_messages := λ _, Some [];
  send_message_to_conversation := λ _ _, Some {| status := Some "success" |}
|}.

Definition offline_gateway : gateway := {|
  login := λ _ _ _, None;
  get_root_node := None;
  get_content_node := λ _, None;
  get_user_tickets := None;
  create_ticket := λ _ _ _, None;
  get_ticket_messages := λ _, None;
  send_message_to_conversation := λ _ _, None
|}.

(** The gateway creates tickets but fails to list them. *)
Definition listing_down_gateway : gateway := {|
  login := login online_gateway;
  get_root_node := get_root_node online_gateway;
  get_content_node := get_content_node online_gateway;
  get_user_tickets := None;
  create_ticket := create_ticket online_gateway;
  get_ticket_messages := get_ticket_messages online_gateway;
  send_message_to_conversation := send_message_to_conversation online_gateway
|}.

(** Tickets whose name is missing, null, and given. *)
Definition ticket_unnamed : ticket := {| ticket_id := 7; conversation_name := None |}.
Definition ticket_null_name : ticket :=
  {| ticket_id := 8; conversation_name := Some None |}.
Definition ticket_named : ticket :=
  {| ticket_id := 9; conversation_name := Some (Some "Billing") |}.

Definition served (evs : list event) : list (gateway * event) :=
  (λ ev, (online_gateway, ev)) <$> evs.

(** User 1 logs in and is shown the root menu. *)
Definition login_events : list event :=
  [Start 1; Text 1 "alice"; Text 1 "secret"].

(** ... then opens the catalog menu, which lists the leaf [Item]. *)
Definition in_catalog : state :=
  run (T := cpython_fragment) (served (login_events ++ [Text 1 "Catalog"])) initial_state.

(** ... or opens the support menu, the list of conversations, and the
    conversation the gateway numbers 0. *)
Definition in_ticket_zero : state :=
  run (T := cpython_fragment)
    (served (login_events ++
       [Text 1 support_button_text; Text 1 my_conv; Text 1 "💬 First"]))
    initial_state.

(** The user sends [/start], a user name, and [/start] again. *)
Definition restarted_login : state :=
  run (T := cpython_fragment) (served [Start 1; Text 1 "alice"; Start 1]) initial_state.

(** ** Invariants of the session store *)

(** No user has an empty stack, and every user who is waiting for a message
    has an active ticket. *)
Definition well_formed (s : state) : Prop :=
  (∀ u, user_nav_stack s !! u ≠ Some []) ∧
  (∀ u, u ∈ waiting_for_message s → is_Some (user_ticket_id s !! u)).

(** What [reset_to_root_menu] does to the session, the label index apart. *)
Definition reset_nav (api : gateway) (user_id : Z) (s : state) : state :=
  match get_root_node api with
  | Some root_node_data =>
      with_nav_stack <[user_id := [NodeId (node_id root_node_data)]]> s
  | None => s
  end.

(** What Back and Home do to the flags of message-send mode. *)
Definition clear_message_mode (user_id : Z) (s : state) : state :=
  with_ticket_id (delete user_id) (with_waiting (λ w, w ∖ {[user_id]}) s).

(** User 1 right after the login: the root menu. *)
Definition at_root : state :=
  run (T := cpython_fragment) (served login_events) initial_state.

(** User 1 has logged in, so the label index knows the support button; user
    2 taps it and has the support marker alone on the stack. *)
Definition in_support_only : state :=
  run (T := cpython_fragment)
    (served (login_events ++ [Text 2 support_button_text])) initial_state.

(** The user has sent [/start] and a user name: the password is awaited. *)
Definition password_pending : state :=
  run (T := cpython_fragment) (served [Start 1; Text 1 "alice"]) initial_state.

(** ** Sentences of the specification the code does not bear out

    Each is stated here as the specification words it, to be refuted below
    at a sample input. *)

(** "Back on a stack of at most one element resets the stack to the
    single-element root stack." *)
Definition back_at_bottom_resets_to_root {T : TextOps} : Prop :=
  ∀ api s user_id,
    reachable s → (length (stack_of s user_id) ≤ 1)%nat →
    ∃ root, stack_of (exec (handle_back_action api user_id) s) user_id = [NodeId root].

(** "Home always yields the stack [[rootId]]." *)
Definition home_always_yields_root {T : TextOps} : Prop :=
  ∀ api s user_id,
    reachable s →
    ∃ root, stack_of (exec (handle_home_action api user_id) s) user_id = [NodeId root].

(** "For every user with awaitingPassword set, any text is consumed as a
    password attempt." *)
Definition password_always_captured {T : TextOps} : Prop :=
  ∀ api s user_id text,
    reachable s → is_Some (awaiting_password s !! user_id) →
    text_message_handler api user_id text s = handle_password_input api text user_id s.

(** "Back after visiting a leaf returns to the menu that listed it": the
    menu on top of the stack when the leaf is opened is on top again after
    Back. *)
Definition back_from_leaf_returns_to_menu {T : TextOps} : Prop :=
  ∀ api s user_id menu leaf_id leaf,
    reachable s →
    last (stack_of s user_id) = Some (NodeId menu) →
    get_content_node api (NodeId leaf_id) = Some {| resp_node := Some leaf |} →
    buttons leaf = [] →
    let s1 := exec (handle_navigation_actions api user_id (NodeId leaf_id) false) s in
    last (stack_of (exec (handle_back_action api user_id) s1) user_id) = Some (NodeId menu).

(** "A failure of listing tickets or of listing ticket messages is surfaced
    as a try-later message." *)
Definition listing_failure_surfaced {T : TextOps} : Prop :=
  ∀ api s user_id back,
    (get_user_tickets api = None →
     existsb try_later_notice
       (sent (handle_navigation_actions api user_id ListConversations back) s) = true) ∧
    (∀ id, get_ticket_messages api id = None →
     existsb try_later_notice
       (sent (handle_navigation_actions api user_id (Ticket id) back) s) = true).

(** "normalize is: NFKC, then trim, then lower-case." *)
Definition normalize_in_spec_order {T : TextOps} : Prop :=
  ∀ text, normalize_text text = normalize_spec text.

(** "Every child button appears in the markup." *)
Definition every_button_shown {T : TextOps} : Prop :=
  ∀ node is_root s b,
    b ∈ buttons node →
    button_label b ∈
      concat (result (make_keyboard (NodeId (node_id node)) node is_root) s).

(** ** Proof steps *)

(** Closes a conjunct "the handler returns this, and it reports a failure"
    from the run of the handler. *)
Ltac notice_sent Hrun :=
  split; [exact Hrun | unfold reports_failure, sent; rewrite Hrun; reflexivity].

(** Symbolic execution of straight-line handler code, with the equations of
    the rewrite database [handler]. *)
Ltac step_handler :=
  autorewrite with handler; unfold send_message, send_photo.

(** Replaces the tests the context has decided by their values. *)
Ltac decide_tests :=
  repeat match goal with
    | H : ?P |- context [bool_decide ?P] => rewrite (bool_decide_eq_true_2 P H)
    | H : ¬ ?P |- context [bool_decide ?P] => rewrite (bool_decide_eq_false_2 P H)
    end.

(** ** More readings of the code *)

(** The user is in none of the input modes the router tests first. *)
Definition no_input_mode (s : state) (user_id : Z) : Prop :=
  awaiting_username s !! user_id = None ∧
  awaiting_password s !! user_id = None ∧
  creating_conversation s !! user_id = None ∧
  user_id ∉ waiting_for_message s.

(** The entries a view puts on a stack: a content node or one of the
    markers of the support menu, the ticket list and an open ticket. *)
Definition is_view (a : nav_action) : bool :=
  match a with
  | NodeId _ | Support | ListConversations | Ticket _ => true
  | NewConversation | Back | Home => false
  end.

Definition views_only (s : state) : Prop :=
  ∀ u l, user_nav_stack s !! u = Some l → Forall (λ a, is_view a = true) l.

(** The ways a handler changes the stack of the user it runs for. *)
Inductive stack_move : list nav_action → list nav_action → Prop :=
  | stack_push l e : is_view e = true → stack_move l (l ++ [e])
  | stack_reset l r : stack_move l [NodeId r]
  | stack_pop l : (1 < length l)%nat → stack_move l (removelast l).

(** Everything the session keeps for one user. *)
Definition same_for (v : Z) (s s' : state) : Prop :=
  user_nav_stack s' !! v = user_nav_stack s !! v ∧
  (v ∈ waiting_for_message s' ↔ v ∈ waiting_for_message s) ∧
  user_ticket_id s' !! v = user_ticket_id s !! v ∧
  creating_conversation s' !! v = creating_conversation s !! v ∧
  awaiting_username s' !! v = awaiting_username s !! v ∧
  awaiting_password s' !! v = awaiting_password s !! v.

(** A step taken for [user_id]: the other users keep what they had, and the
    user's stack changes by pushes, resets and pops. *)
Definition user_step (user_id : Z) (s s' : state) : Prop :=
  (∀ v, v ≠ user_id → same_for v s s') ∧
  rtc stack_move (stack_of s user_id) (stack_of s' user_id).

(** The button of a ticket in [build_user_tickets_keyboard], and the index
    entries the builder writes for a list of tickets. *)
Definition ticket_label (t : ticket) : string :=
  "💬 " +:+
  py_format (default (Some ("Беседа #" +:+ py_str (ticket_id t))) (conversation_name t)).

Definition ticket_writes {T : TextOps} (tickets : list ticket)
    : list (string * nav_action) :=
  (λ t, (normalize_text (ticket_label t), Ticket (ticket_id t))) <$> tickets.

(** One line of the transcript [show_ticket_messages] sends. *)
Definition transcript_line (user_id : Z) (m : message) : outgoing :=
  SendMessage
    ("🕒 " +:+ created_at m +:+ nl +:+ "👤 "
       +:+ (if decide (sender_id m = user_id) then "Вы" else "Менеджер")
       +:+ ":" +:+ nl +:+ msg_text m)
    None.

(** The user an event comes from. *)
Definition event_user (ev : event) : Z :=
  match ev with
  | Start user_id => user_id
  | Text user_id _ => user_id
  end.

(** A gateway whose ticket 42 has two messages, one of user 1. *)
Definition chat_gateway : gateway := {|
  login := λ _ _ _, None;
  get_root_node := None;
  get_content_node := λ _, None;
  get_user_tickets := None;
  create_ticket := λ _ _ _, None;
  get_ticket_messages := λ _,
    Some [ {| sender_id := 1; created_at := "t1"; msg_text := "hi" |};
           {| sender_id := 7; created_at := "t2"; msg_text := "hello" |} ];
  send_message_to_conversation := λ _ _, None
|}.

(** User 1 in the support menu has asked for a new conversation. *)
Definition creating_ticket : state :=
  run (T := cpython_fragment)
    (served (login_events ++ [Text 1 support_button_text; Text 1 new_conv]))
    initial_state.

(** The test [send_status and send_status.get("status") == "success"]. *)
Definition send_accepted (r : option send_response) : bool :=
  match r with
  | Some {| status := Some st |} => bool_decide (st = "success")
  | _ => false
  end.

(** A write under the user's own key leaves the other users alone; [step] is
    the lemma that turns this into a step of the user. *)
Ltac own_key_write step :=
  apply step; [reflexivity|];
  intros v Hv; unfold same_for; simpl;
  rewrite ?lookup_insert_ne, ?lookup_delete_ne by done;
  rewrite ?elem_of_union, ?elem_of_difference, ?elem_of_singleton;
  repeat split; try done; tauto.


(** * Properties *)

(** ** Running handlers *)

Lemma exec_bind {A B} (m : Handler A) (k : A → Handler B) s :
  exec (bind m k) s = exec (k (result m s)) (exec m s).
Proof.
  unfold exec, result, bind. destruct (m s) as [[a s1] o1]; simpl.
  destruct (k a s1) as [[b s2] o2]; reflexivity.
Qed.

Lemma sent_bind {A B} (m : Handler A) (k : A → Handler B) s :
  sent (bind m k) s = sent m s ++ sent (k (result m s)) (exec m s).
Proof.
  unfold exec, sent, result, bind. destruct (m s) as [[a s1] o1]; simpl.
  destruct (k a s1) as [[b s2] o2]; reflexivity.
Qed.

Lemma result_bind {A B} (m : Handler A) (k : A → Handler B) s :
  result (bind m k) s = result (k (result m s)) (exec m s).
Proof.
  unfold exec, result, bind. destruct (m s) as [[a s1] o1]; simpl.
  destruct (k a s1) as [[b s2] o2]; reflexivity.
Qed.

Lemma exec_for_each {A} (l : list A) (body : A → Handler unit) s :
  (∀ x s', exec (body x) s' = s') → exec (for_each l body) s = s.
Proof.
  intros Hbody. induction l as [|x l IH]; simpl; [done|].
  by rewrite exec_bind, Hbody.
Qed.

(** Reading the state and writing it. *)

Lemma exec_gets_bind {A B} (f : state → A) (k : A → Handler B) s :
  exec (bind (gets f) k) s = exec (k (f s)) s.
Proof. by rewrite exec_bind. Qed.

Lemma sent_gets_bind {A B} (f : state → A) (k : A → Handler B) s :
  sent (bind (gets f) k) s = sent (k (f s)) s.
Proof. by rewrite sent_bind. Qed.

Lemma exec_modify_bind {B} (f : state → state) (k : unit → Handler B) s :
  exec (bind (modify f) k) s = exec (k tt) (f s).
Proof. by rewrite exec_bind. Qed.

Lemma bind_gets_apply {A B} (f : state → A) (k : A → Handler B) s :
  bind (gets f) k s = k (f s) s.
Proof. unfold bind, gets. by destruct (k (f s) s) as [[b s2] o2]. Qed.

Lemma bind_modify_apply {B} (f : state → state) (k : unit → Handler B) s :
  bind (modify f) k s = k tt (f s).
Proof. unfold bind, modify. by destruct (k tt (f s)) as [[b s2] o2]. Qed.

Create Rewrite HintDb handler.
#[global] Hint Rewrite @exec_bind @sent_bind @result_bind : handler.
#[global] Hint Rewrite @exec_for_each using done : handler.

(** ** The keyboard builders write the label index and nothing else *)

Section BuilderFrame.
Context {T : TextOps}.

Lemma make_keyboard_frame a n r s :
  forget_actions (exec (make_keyboard a n r) s) = forget_actions s.
Proof.
  unfold make_keyboard, exec, bind, gets, modify, ret; simpl.
  destruct (keyboard_rows _ _ _ _) as [[? ?] ?]. by destruct r.
Qed.

Lemma build_ticket_chat_keyboard_frame s :
  forget_actions (exec build_ticket_chat_keyboard s) = forget_actions s.
Proof. reflexivity. Qed.

Lemma build_support_menu_keyboard_frame s :
  forget_actions (exec build_support_menu_keyboard s) = forget_actions s.
Proof. reflexivity. Qed.

Lemma build_user_tickets_keyboard_frame tickets s :
  forget_actions (exec (build_user_tickets_keyboard tickets) s) = forget_actions s.
Proof.
  unfold build_user_tickets_keyboard, exec, bind, gets, modify, ret; simpl.
  by destruct (ticket_rows _ _) as [? ?].
Qed.

End BuilderFrame.

(** Fields of a state are read off its index-free part. *)
Lemma frame_fields s s' :
  forget_actions s' = forget_actions s →
  user_nav_stack s' = user_nav_stack s ∧
  waiting_for_message s' = waiting_for_message s ∧
  user_ticket_id s' = user_ticket_id s ∧
  creating_conversation s' = creating_conversation s ∧
  awaiting_username s' = awaiting_username s ∧
  awaiting_password s' = awaiting_password s ∧
  api_token s' = api_token s.
Proof.
  intros H. repeat split.
  - exact (f_equal user_nav_stack H).
  - exact (f_equal waiting_for_message H).
  - exact (f_equal user_ticket_id H).
  - exact (f_equal creating_conversation H).
  - exact (f_equal awaiting_username H).
  - exact (f_equal awaiting_password H).
  - exact (f_equal api_token H).
Qed.

(** ** The ticket view (C6) and the failed node fetch (C5) *)

Section Navigation.
Context {T : TextOps} (api : gateway).

Lemma exec_ticket_transcript user_id ticket_id s :
  exec
    match get_ticket_messages api ticket_id with
    | Some (m0 :: rest) =>
        send_message ("💬 Сообщения в беседе #" +:+ py_str ticket_id +:+ ":") None ;;
        for_each (m0 :: rest) (λ m,
          let sender := if decide (sender_id m = user_id) then "Вы" else "Менеджер" in
          send_message
            ("🕒 " +:+ created_at m +:+ nl +:+ "👤 " +:+ sender +:+ ":" +:+ nl +:+ msg_text m)
            None)
    | _ => send_message "Беседа пуста." None
    end s = s.
Proof.
  destruct (get_ticket_messages api ticket_id) as [[|m0 rest]|]; try reflexivity.
  rewrite exec_bind. by rewrite exec_for_each.
Qed.

Lemma show_ticket_messages_exec user_id ticket_id back s :
  forget_actions (exec (show_ticket_messages api user_id ticket_id back) s) =
  forget_actions
    (with_waiting (λ w, {[user_id]} ∪ w)
       (with_ticket_id <[user_id := ticket_id]>
          (if back then s
           else with_nav_stack (stack_append user_id (Ticket ticket_id)) s))).
Proof.
  unfold show_ticket_messages. rewrite !exec_bind.
  rewrite exec_ticket_transcript. by destruct back.
Qed.

End Navigation.

(** C6. For every user, ticket id and value of the back-replay flag, the
    Ticket action sets the active ticket id to that id and puts the user in
    the waiting-for-message set, whatever the message fetch answered (a
    failure and an empty list included), and it appends the ticket marker to
    the user's stack exactly when the flag is false. *)
Theorem ticket_view_arms_message_mode {T : TextOps} api user_id id back s :
  let s' := exec (handle_navigation_actions api user_id (Ticket id) back) s in
  user_ticket_id s' !! user_id = Some id ∧
  user_id ∈ waiting_for_message s' ∧
  stack_of s' user_id =
    (if back then stack_of s user_id else stack_of s user_id ++ [Ticket id]) ∧
  user_ticket_id s' = <[user_id := id]> (user_ticket_id s) ∧
  waiting_for_message s' = {[user_id]} ∪ waiting_for_message s ∧
  user_nav_stack s' =
    (if back then user_nav_stack s
     else stack_append user_id (Ticket id) (user_nav_stack s)).
Proof.
  simpl. unfold handle_navigation_actions.
  destruct (frame_fields _ _ (show_ticket_messages_exec api user_id id back s))
    as (Hnav & Hwait & Hticket & _).
  simpl in Hnav, Hwait, Hticket. unfold stack_of.
  rewrite Hnav, Hwait, Hticket.
  repeat split.
  - by destruct back; simpl; rewrite lookup_insert_eq.
  - apply elem_of_union; left. by apply elem_of_singleton.
  - destruct back; simpl; [done|]. unfold stack_append. by rewrite lookup_insert_eq.
  - by destruct back.
  - by destruct back.
  - by destruct back.
Qed.

(** C5. When the fetch of a node fails, or its answer holds no node, the
    NodeId action sends the "section unavailable" notice and returns the
    session exactly as it was: stack, flags, active ticket and label index. *)
Theorem node_fetch_failure_changes_nothing {T : TextOps} api user_id n back s :
  get_content_node api (NodeId n) = None ∨
  get_content_node api (NodeId n) = Some {| resp_node := None |} →
  handle_navigation_actions api user_id (NodeId n) back s =
    (tt, s,
     [SendMessage "Не удалось найти информацию по этому разделу. Попробуйте позже." None]).
Proof.
  intros [H|H]; unfold handle_navigation_actions, navigate_content_node;
    rewrite H; reflexivity.
Qed.

Lemma node_fetch_failure_witness :
  handle_navigation_actions (T := cpython_fragment) offline_gateway 1 (NodeId 5) false
    in_catalog =
    (tt, in_catalog,
     [SendMessage "Не удалось найти информацию по этому разделу. Попробуйте позже." None]).
Proof. apply node_fetch_failure_changes_nothing. left. reflexivity. Defined.

(** ** What each navigation step does to the session *)

Section Effects.
Context {T : TextOps} (api : gateway).

Lemma render_main_menu_frame user_id root s :
  forget_actions (exec (render_main_menu user_id root) s) = forget_actions s.
Proof.
  unfold render_main_menu. step_handler. apply make_keyboard_frame.
Qed.

Lemma reset_to_root_menu_exec user_id s :
  forget_actions (exec (reset_to_root_menu api user_id) s) =
  forget_actions (reset_nav api user_id s).
Proof.
  unfold reset_to_root_menu, reset_nav.
  destruct (get_root_node api) as [root|]; [|done].
  rewrite exec_bind. simpl show_main_menu. by rewrite render_main_menu_frame.
Qed.

Lemma open_support_menu_exec user_id back s :
  forget_actions (exec (open_support_menu user_id back) s) =
  forget_actions (if back then s else with_nav_stack (stack_append user_id Support) s).
Proof. unfold open_support_menu. step_handler. by destruct back. Qed.

Lemma show_user_conversations_exec user_id back s :
  forget_actions (exec (show_user_conversations api user_id back) s) =
  forget_actions
    (if back then s else with_nav_stack (stack_append user_id ListConversations) s).
Proof.
  unfold show_user_conversations. rewrite exec_bind.
  destruct (get_user_tickets api) as [[|t rest]|]; simpl.
  - by destruct back.
  - rewrite exec_bind. unfold send_message.
    change (exec (emit ?o) ?x) with x.
    rewrite build_user_tickets_keyboard_frame. by destruct back.
  - by destruct back.
Qed.

(** A node view leaves the session as it was or appends the node to the
    user's stack; the latter only outside a back replay and only for a node
    with child buttons. *)
Lemma navigate_content_node_exec user_id a back s :
  forget_actions (exec (navigate_content_node api user_id a back) s) = forget_actions s ∨
  (back = false ∧
   forget_actions (exec (navigate_content_node api user_id a back) s) =
   forget_actions (with_nav_stack (stack_append user_id a) s)).
Proof.
  unfold navigate_content_node.
  destruct (match get_content_node api a with Some r => resp_node r | None => None end)
    as [node|]; [|by left].
  rewrite exec_bind.
  change (exec (gets user_nav_stack) s) with s.
  change (result (gets user_nav_stack) s) with (user_nav_stack s).
  destruct (negb (bool_decide (buttons node = []))); [|by left].
  step_handler. change (exec (emit ?o) ?x) with x.
  rewrite make_keyboard_frame.
  destruct (negb back && _) eqn:Hpush.
  - right. split; [|done]. by destruct back.
  - by left.
Qed.

End Effects.

(** ** The invariant and the single writes *)

Lemma well_formed_initial : well_formed initial_state.
Proof.
  split; intros u; simpl; [by rewrite lookup_empty | by rewrite elem_of_empty].
Qed.

Lemma well_formed_frame s s' :
  forget_actions s' = forget_actions s → well_formed s → well_formed s'.
Proof.
  intros H [Hs Hw]. destruct (frame_fields _ _ H) as (Hnav & Hwait & Hticket & _).
  split; intros u; rewrite ?Hnav, ?Hwait, ?Hticket; auto.
Qed.

Lemma well_formed_append user_id entry s :
  well_formed s → well_formed (with_nav_stack (stack_append user_id entry) s).
Proof.
  intros [Hs Hw]. split; [|exact Hw]. intros u. simpl. unfold stack_append.
  destruct (decide (user_id = u)) as [->|Hne].
  - rewrite lookup_insert_eq. intros [= H]. by destruct (default [] _).
  - rewrite lookup_insert_ne by done. apply Hs.
Qed.

Lemma well_formed_root user_id entry s :
  well_formed s → well_formed (with_nav_stack <[user_id := [entry]]> s).
Proof.
  intros [Hs Hw]. split; [|exact Hw]. intros u. simpl.
  destruct (decide (user_id = u)) as [->|Hne].
  - by rewrite lookup_insert_eq.
  - rewrite lookup_insert_ne by done. apply Hs.
Qed.

Lemma removelast_nonempty {A} (l : list A) : (1 < length l)%nat → removelast l ≠ [].
Proof. destruct l as [|a [|b l]]; simpl; [lia | lia | done]. Qed.

Lemma well_formed_pop user_id s :
  (1 < length (stack_of s user_id))%nat → well_formed s →
  well_formed (with_nav_stack <[user_id := removelast (stack_of s user_id)]> s).
Proof.
  intros Hlen [Hs Hw]. split; [|exact Hw]. intros u. simpl.
  destruct (decide (user_id = u)) as [->|Hne].
  - rewrite lookup_insert_eq. intros [= H]. by apply removelast_nonempty in Hlen.
  - rewrite lookup_insert_ne by done. apply Hs.
Qed.

Lemma well_formed_clear user_id s :
  well_formed s → well_formed (clear_message_mode user_id s).
Proof.
  intros [Hs Hw]. split; [exact Hs|]. intros u. simpl.
  rewrite elem_of_difference, elem_of_singleton. intros [Hin Hne].
  rewrite lookup_delete_ne by done. by apply Hw.
Qed.

Lemma well_formed_open user_id ticket_id s :
  well_formed s →
  well_formed
    (with_waiting (λ w, {[user_id]} ∪ w) (with_ticket_id <[user_id := ticket_id]> s)).
Proof.
  intros [Hs Hw]. split; [exact Hs|]. intros u. simpl.
  rewrite elem_of_union, elem_of_singleton.
  destruct (decide (user_id = u)) as [->|Hne].
  - by rewrite lookup_insert_eq.
  - rewrite lookup_insert_ne by done. intros [Heq|Hin]; [congruence | by apply Hw].
Qed.

Lemma well_formed_reset_nav api user_id s :
  well_formed s → well_formed (reset_nav api user_id s).
Proof.
  unfold reset_nav. destruct (get_root_node api); [apply well_formed_root | done].
Qed.

(** ** Every handler keeps the invariant *)

Section Invariant.
Context {T : TextOps} (api : gateway).

Lemma well_formed_reset_to_root_menu user_id s :
  well_formed s → well_formed (exec (reset_to_root_menu api user_id) s).
Proof.
  intros H. eapply well_formed_frame; [apply reset_to_root_menu_exec|].
  by apply well_formed_reset_nav.
Qed.

Lemma well_formed_navigate_content_node user_id a back s :
  well_formed s → well_formed (exec (navigate_content_node api user_id a back) s).
Proof.
  intros H. destruct (navigate_content_node_exec api user_id a back s) as [E|[_ E]];
    (eapply well_formed_frame; [exact E|]); [done | by apply well_formed_append].
Qed.

Lemma well_formed_handle_navigation_actions user_id action back s :
  well_formed s →
  well_formed (exec (handle_navigation_actions api user_id action back) s).
Proof.
  intros H. destruct action; simpl.
  - by apply well_formed_navigate_content_node.
  - eapply well_formed_frame; [apply open_support_menu_exec|].
    destruct back; [done | by apply well_formed_append].
  - by destruct H.
  - eapply well_formed_frame; [apply show_user_conversations_exec|].
    destruct back; [done | by apply well_formed_append].
  - eapply well_formed_frame; [apply show_ticket_messages_exec|].
    apply well_formed_open. destruct back; [done | by apply well_formed_append].
  - rewrite exec_gets_bind. case_decide as Hlen.
    + rewrite exec_modify_bind. fold (stack_of s user_id).
      pose proof (well_formed_pop user_id s Hlen H) as Hpop.
      destruct (last _); [by apply well_formed_navigate_content_node | done].
    + by apply well_formed_reset_to_root_menu.
  - by apply well_formed_reset_to_root_menu.
Qed.

Lemma well_formed_handle_back_action user_id s :
  well_formed s → well_formed (exec (handle_back_action api user_id) s).
Proof.
  intros H. unfold handle_back_action. rewrite exec_gets_bind. case_decide as Hlen.
  - rewrite exec_modify_bind. fold (stack_of s user_id).
    pose proof (well_formed_pop user_id s Hlen H) as Hpop.
    destruct (last _); [|done].
    rewrite !exec_modify_bind. apply well_formed_handle_navigation_actions.
    by apply (well_formed_clear user_id) in Hpop.
  - rewrite !exec_modify_bind. apply well_formed_reset_to_root_menu.
    by apply (well_formed_clear user_id) in H.
Qed.

Lemma well_formed_handle_home_action user_id s :
  well_formed s → well_formed (exec (handle_home_action api user_id) s).
Proof.
  intros H. unfold handle_home_action. rewrite !exec_modify_bind.
  apply well_formed_reset_to_root_menu. by apply (well_formed_clear user_id) in H.
Qed.

Lemma well_formed_handle_username_input text user_id s :
  well_formed s → well_formed (exec (handle_username_input text user_id) s).
Proof. by intros [??]. Qed.

Lemma well_formed_handle_password_input text user_id s :
  well_formed s → well_formed (exec (handle_password_input api text user_id) s).
Proof.
  intros H. unfold handle_password_input. rewrite exec_gets_bind.
  destruct (awaiting_password s !! user_id); [|done].
  rewrite exec_modify_bind. destruct (login api _ _ _).
  - rewrite exec_modify_bind. apply well_formed_reset_to_root_menu. by destruct H.
  - by destruct H.
Qed.

Lemma well_formed_handle_conversation_creation text user_id s :
  well_formed s →
  well_formed (exec (handle_conversation_creation api text user_id) s).
Proof.
  intros H. unfold handle_conversation_creation. rewrite exec_modify_bind.
  destruct (create_ticket api _ _ _) as [[[?|]]|]; try by destruct H.
  rewrite exec_modify_bind, exec_bind.
  change (exec (send_message ?t ?m) ?x) with x.
  eapply well_formed_frame; [apply build_user_tickets_keyboard_frame|].
  apply well_formed_append. by destruct H.
Qed.

Lemma handle_send_message_frame text user_id s :
  forget_actions (exec (handle_send_message api text user_id) s) = forget_actions s.
Proof.
  unfold handle_send_message. rewrite exec_gets_bind.
  destruct (user_ticket_id s !! user_id) as [ticket_id|]; [|done].
  case_decide; [done|].
  destruct (send_message_to_conversation api _ _) as [[[st|]]|]; try done.
  by case_decide.
Qed.

Lemma well_formed_handle_navigation_or_fallback user_id user_text s :
  well_formed s →
  well_formed (exec (handle_navigation_or_fallback api user_id user_text) s).
Proof.
  intros H. unfold handle_navigation_or_fallback. rewrite exec_gets_bind.
  destruct (_ !! user_text); [by apply well_formed_handle_navigation_actions | done].
Qed.

Lemma well_formed_text_message_handler user_id text s :
  well_formed s → well_formed (exec (text_message_handler api user_id text) s).
Proof.
  intros H. unfold text_message_handler. rewrite exec_gets_bind. unfold id.
  repeat case_decide.
  - by apply well_formed_handle_username_input.
  - by apply well_formed_handle_password_input.
  - by apply well_formed_handle_back_action.
  - by apply well_formed_handle_home_action.
  - by apply well_formed_handle_conversation_creation.
  - eapply well_formed_frame; [apply handle_send_message_frame | done].
  - by apply well_formed_handle_navigation_or_fallback.
Qed.

End Invariant.

Lemma well_formed_handle {T : TextOps} api ev s :
  well_formed s → well_formed (exec (handle api ev) s).
Proof.
  intros H. destruct ev; simpl.
  - by destruct H.
  - by apply well_formed_text_message_handler.
Qed.

Lemma reachable_well_formed {T : TextOps} s : reachable s → well_formed s.
Proof.
  induction 1; [apply well_formed_initial | by apply well_formed_handle].
Qed.

Lemma reachable_run {T : TextOps} trace s : reachable s → reachable (run trace s).
Proof.
  revert s. induction trace as [|[api ev] trace IH]; intros s H; simpl; [done|].
  apply IH. by constructor.
Qed.

(** ** Back and Home (C1, C3) *)

Lemma discard_not_elem (u : Z) (w : gset Z) : u ∉ w ∖ {[u]}.
Proof. rewrite elem_of_difference, elem_of_singleton. tauto. Qed.

Lemma discard_twice (u : Z) (w : gset Z) : w ∖ {[u]} ∖ {[u]} = w ∖ {[u]}.
Proof.
  apply set_eq. intros x. rewrite !elem_of_difference. tauto.
Qed.

Section BackHome.
Context {T : TextOps} (api : gateway).

Lemma handle_home_action_exec user_id s :
  forget_actions (exec (handle_home_action api user_id) s) =
  forget_actions (reset_nav api user_id (clear_message_mode user_id s)).
Proof.
  unfold handle_home_action. rewrite !exec_modify_bind. apply reset_to_root_menu_exec.
Qed.

(** The session after Home is a function of the session before it without
    its label index. *)
Lemma reset_clear_forget user_id s :
  forget_actions (reset_nav api user_id (clear_message_mode user_id s)) =
  reset_nav api user_id (clear_message_mode user_id (forget_actions s)).
Proof. unfold reset_nav. by destruct (get_root_node api). Qed.

Lemma reset_clear_idempotent user_id s :
  reset_nav api user_id (clear_message_mode user_id
    (reset_nav api user_id (clear_message_mode user_id s))) =
  reset_nav api user_id (clear_message_mode user_id s).
Proof.
  unfold reset_nav, clear_message_mode, with_nav_stack, with_ticket_id, with_waiting.
  destruct (get_root_node api); simpl; f_equal;
    rewrite ?insert_insert_eq, ?delete_delete_eq, ?discard_twice; done.
Qed.

Lemma back_at_bottom_is_home user_id s :
  (length (stack_of s user_id) ≤ 1)%nat →
  handle_back_action api user_id s = handle_home_action api user_id s.
Proof.
  intros Hlen. unfold handle_back_action. rewrite bind_gets_apply.
  fold (stack_of s user_id). case_decide; [lia | done].
Qed.

Lemma navigation_back_at_bottom_is_home user_id back s :
  (length (stack_of s user_id) ≤ 1)%nat →
  handle_navigation_actions api user_id Back back s =
  handle_navigation_actions api user_id Home back s.
Proof.
  intros Hlen. simpl. rewrite bind_gets_apply.
  fold (stack_of s user_id). case_decide; [lia | done].
Qed.

(** Home when the root fetch fails: the flags are cleared, the stack stays. *)
Lemma home_without_root user_id s :
  get_root_node api = None →
  handle_home_action api user_id s =
  (tt, clear_message_mode user_id s,
   [SendMessage "Не удалось загрузить главное меню." None]).
Proof.
  intros H. unfold handle_home_action, reset_to_root_menu. by rewrite H.
Qed.

End BackHome.

(** C1, as stated, fails in its description of the reset: when the root
    fetch returns nothing, Back on a one-element stack clears the flags and
    keeps the stack. User 2, with the support marker alone, goes back while
    the gateway is down, and the stack is still the support marker. *)
Lemma back_at_bottom_keeps_stack_offline :
  ¬ back_at_bottom_resets_to_root (T := cpython_fragment).
Proof.
  intros Hclaim.
  destruct (Hclaim offline_gateway in_support_only 2) as [root Hroot].
  - exact (reachable_run (T := cpython_fragment)
             (served (login_events ++ [Text 2 support_button_text])) initial_state
             reachable_initial).
  - vm_compute. lia.
  - vm_compute in Hroot. discriminate Hroot.
Qed.

(** C1, amended. In every reachable state no operation leaves a user's
    history stack empty; and Back applied when the user's stack has at most
    one element is Home, step for step: the same messages and the same
    session, with the message-waiting flag and the active ticket id cleared,
    and the stack reset to the root alone when the root fetch returns a node
    and left as it was, not empty, when it returns nothing. *)
Theorem history_stack_never_empty {T : TextOps} api user_id s :
  reachable s →
  (∀ api' ev u, user_nav_stack (exec (handle api' ev) s) !! u ≠ Some []) ∧
  ((length (stack_of s user_id) ≤ 1)%nat →
   handle_back_action api user_id s = handle_home_action api user_id s ∧
   (∀ back, handle_navigation_actions api user_id Back back s =
            handle_navigation_actions api user_id Home back s) ∧
   (let s' := exec (handle_back_action api user_id) s in
    (user_id ∉ waiting_for_message s') ∧
    user_ticket_id s' !! user_id = None ∧
    user_nav_stack s' !! user_id =
      match get_root_node api with
      | Some root => Some [NodeId (node_id root)]
      | None => user_nav_stack s !! user_id
      end ∧
    user_nav_stack s' !! user_id ≠ Some [])).
Proof.
  intros Hreach. pose proof (reachable_well_formed s Hreach) as Hwf. split.
  - intros api' ev u. by apply (well_formed_handle api' ev s Hwf).
  - intros Hlen. split; [by apply back_at_bottom_is_home|].
    split; [intros back; by apply navigation_back_at_bottom_is_home|].
    simpl. unfold exec at 1 2 3 4. rewrite (back_at_bottom_is_home api user_id s Hlen).
    fold (exec (handle_home_action api user_id) s).
    destruct (frame_fields _ _ (handle_home_action_exec api user_id s))
      as (Hnav & Hwait & Hticket & _).
    rewrite Hnav, Hwait, Hticket. unfold reset_nav.
    assert (user_nav_stack
              match get_root_node api with
              | Some root =>
                  with_nav_stack <[user_id := [NodeId (node_id root)]]>
                    (clear_message_mode user_id s)
              | None => clear_message_mode user_id s
              end !! user_id =
            match get_root_node api with
            | Some root => Some [NodeId (node_id root)]
            | None => user_nav_stack s !! user_id
            end) as Hstack.
    { destruct (get_root_node api); simpl; [by rewrite lookup_insert_eq | done]. }
    repeat split.
    + destruct (get_root_node api); simpl; apply discard_not_elem.
    + destruct (get_root_node api); simpl; by rewrite lookup_delete_eq.
    + exact Hstack.
    + rewrite Hstack. destruct (get_root_node api); [done | apply Hwf].
Qed.

Lemma history_stack_never_empty_witness :
  handle_back_action (T := cpython_fragment) online_gateway 1 at_root =
  handle_home_action (T := cpython_fragment) online_gateway 1 at_root.
Proof.
  refine (proj1 (proj2 (history_stack_never_empty (T := cpython_fragment)
                          online_gateway 1 at_root _) _)).
  - exact (reachable_run (T := cpython_fragment) (served login_events) initial_state
             reachable_initial).
  - vm_compute. lia.
Defined.

(** C3, as stated, fails when the root fetch returns nothing: Home in the
    catalog menu with the gateway down leaves the two entries of the stack. *)
Lemma home_keeps_stack_offline :
  ¬ home_always_yields_root (T := cpython_fragment).
Proof.
  intros Hclaim.
  destruct (Hclaim offline_gateway in_catalog 1) as [root Hroot].
  - exact (reachable_run (T := cpython_fragment)
             (served (login_events ++ [Text 1 "Catalog"])) initial_state
             reachable_initial).
  - vm_compute in Hroot. discriminate Hroot.
Qed.

(** C3, amended. Home is idempotent on the navigation stack. It clears the
    message-waiting flag and the active ticket id; when the root fetch returns
    a node, it leaves the user's stack equal to the one-element list of that
    node's id, whatever the stack held before, and when the fetch returns
    nothing it leaves the stack as it was. Running Home again, with the same
    answer of the gateway, changes nothing in the session. *)
Theorem home_is_idempotent {T : TextOps} api user_id s :
  let s1 := exec (handle_home_action api user_id) s in
  let s2 := exec (handle_home_action api user_id) s1 in
  user_nav_stack s1 =
    match get_root_node api with
    | Some root => <[user_id := [NodeId (node_id root)]]> (user_nav_stack s)
    | None => user_nav_stack s
    end ∧
  (∀ root, get_root_node api = Some root →
           user_nav_stack s1 !! user_id = Some [NodeId (node_id root)]) ∧
  (user_id ∉ waiting_for_message s1) ∧
  user_ticket_id s1 !! user_id = None ∧
  user_nav_stack s2 = user_nav_stack s1 ∧
  forget_actions s2 = forget_actions s1.
Proof.
  cbv zeta.
  assert (forget_actions (exec (handle_home_action api user_id)
            (exec (handle_home_action api user_id) s)) =
          forget_actions (exec (handle_home_action api user_id) s)) as Hidem.
  { rewrite (handle_home_action_exec api user_id (exec _ s)).
    rewrite reset_clear_forget, (handle_home_action_exec api user_id s).
    rewrite reset_clear_forget, reset_clear_idempotent. done. }
  destruct (frame_fields _ _ (handle_home_action_exec api user_id s))
    as (Hnav & Hwait & Hticket & _).
  destruct (frame_fields _ _ Hidem) as (Hnav2 & _).
  rewrite Hnav2, Hnav, Hwait, Hticket. unfold reset_nav.
  split; [by destruct (get_root_node api)|].
  split; [intros root ->; simpl; by rewrite lookup_insert_eq|].
  split; [destruct (get_root_node api); simpl; apply discard_not_elem|].
  split; [destruct (get_root_node api); simpl; by rewrite lookup_delete_eq|].
  split; [reflexivity | exact Hidem].
Qed.

(** ** The input router (C2) *)

Section Router.
Context {T : TextOps} (api : gateway).

(** The if-chain of [text_message_handler] is the priority list. *)
Lemma router_follows_priority_list user_id text s :
  text_message_handler api user_id text s =
  run_route api (router_spec s user_id text) user_id text s.
Proof.
  unfold text_message_handler, router_spec, first_match.
  rewrite bind_gets_apply. unfold id.
  repeat case_decide; try contradiction; decide_tests; reflexivity.
Qed.

Lemma route_with_password_pending user_id text s :
  is_Some (awaiting_password s !! user_id) →
  router_spec s user_id text =
    if decide (is_Some (awaiting_username s !! user_id)) then ToUsername else ToPassword.
Proof.
  intros Hp. unfold router_spec, first_match.
  repeat case_decide; try contradiction; decide_tests; reflexivity.
Qed.

End Router.

Lemma restarted_login_flags :
  awaiting_username restarted_login !! 1 = Some true ∧
  awaiting_password restarted_login !! 1 = Some "alice".
Proof. split; vm_compute; reflexivity. Qed.

(** C2, as stated, fails: after [/start], a user name and [/start] again the
    user has both flags set, and the next text is taken as the user name,
    not as a password. *)
Lemma password_not_always_captured :
  ¬ password_always_captured (T := cpython_fragment).
Proof.
  intros Hclaim.
  specialize (Hclaim online_gateway restarted_login 1 home_button_text).
  assert (sent (text_message_handler (T := cpython_fragment) online_gateway 1
                  home_button_text) restarted_login =
          sent (handle_password_input (T := cpython_fragment) online_gateway
                  home_button_text 1) restarted_login) as Hsent.
  { unfold sent. rewrite Hclaim; [done| |].
    - exact (reachable_run (T := cpython_fragment)
               (served [Start 1; Text 1 "alice"; Start 1]) initial_state
               reachable_initial).
    - exists "alice". apply restarted_login_flags. }
  vm_compute in Hsent. discriminate Hsent.
Qed.

(** C2, amended. The router tests, in this order, awaiting-username,
    awaiting-password, the back label, the home label, creating-conversation,
    waiting-for-message, and resolves the text as an action when none holds.
    For a user with awaitingPassword set no text is ever taken as a
    navigation action: when awaitingUsername is not set, every text, the
    home and back labels included, is a password attempt; when it is set as
    well, the text is taken as the user name. *)
Theorem router_priority_order {T : TextOps} api user_id text s :
  text_message_handler api user_id text s =
    run_route api (router_spec s user_id text) user_id text s ∧
  (is_Some (awaiting_password s !! user_id) →
   (awaiting_username s !! user_id = None →
    router_spec s user_id text = ToPassword ∧
    text_message_handler api user_id text s = handle_password_input api text user_id s) ∧
   (is_Some (awaiting_username s !! user_id) →
    router_spec s user_id text = ToUsername ∧
    text_message_handler api user_id text s = handle_username_input text user_id s)).
Proof.
  split; [apply router_follows_priority_list|].
  intros Hp. split; intros Hu.
  - assert (router_spec s user_id text = ToPassword) as Hr.
    { rewrite route_with_password_pending by done.
      case_decide as Hs; [|done]. rewrite Hu in Hs. by destruct Hs. }
    split; [done|]. by rewrite router_follows_priority_list, Hr.
  - assert (router_spec s user_id text = ToUsername) as Hr.
    { rewrite route_with_password_pending by done. by case_decide. }
    split; [done|]. by rewrite router_follows_priority_list, Hr.
Qed.

Lemma router_priority_order_witness :
  text_message_handler (T := cpython_fragment) online_gateway 1 home_button_text
    password_pending =
  handle_password_input (T := cpython_fragment) online_gateway home_button_text 1
    password_pending.
Proof.
  refine (proj2 (proj1 (proj2 (router_priority_order (T := cpython_fragment)
            online_gateway 1 home_button_text password_pending) _) _)).
  - exists "alice". vm_compute. reflexivity.
  - vm_compute. reflexivity.
Defined.

(** ** Leaves (C4) *)

Section Leaves.
Context {T : TextOps} (api : gateway).

Lemma leaf_view user_id a back s leaf :
  get_content_node api a = Some {| resp_node := Some leaf |} →
  buttons leaf = [] →
  navigate_content_node api user_id a back s =
    (tt, s,
     [SendMessage
        ("📌 " +:+ default EmptyString (node_title leaf) +:+ nl +:+ nl
           +:+ default EmptyString (node_text leaf))
        None]).
Proof.
  intros Hget Hleaf. unfold navigate_content_node. rewrite Hget. simpl.
  rewrite bind_gets_apply, Hleaf. reflexivity.
Qed.

(** Back with at least two entries: the top goes, the flags are cleared and
    the entry beneath is replayed. *)
Lemma back_pops_and_replays user_id s l prev top :
  user_nav_stack s !! user_id = Some (l ++ [prev; top]) →
  handle_back_action api user_id s =
  handle_navigation_actions api user_id prev true
    (clear_message_mode user_id (with_nav_stack <[user_id := l ++ [prev]]> s)).
Proof.
  intros Hstack. unfold handle_back_action. rewrite bind_gets_apply, Hstack. simpl.
  replace (l ++ [prev; top]) with ((l ++ [prev]) ++ [top]) by by rewrite <- app_assoc.
  rewrite removelast_last, last_snoc.
  case_decide as Hlen; [|rewrite !length_app in Hlen; simpl in Hlen; lia].
  by rewrite !bind_modify_apply.
Qed.

End Leaves.

(** C4, as stated, fails: in the catalog menu, two levels deep, the user
    opens the leaf the menu lists and goes back; the stack then ends with the
    root, the menu above the catalog menu. *)
Lemma back_from_leaf_skips_the_menu :
  ¬ back_from_leaf_returns_to_menu (T := cpython_fragment).
Proof.
  intros Hclaim.
  specialize (Hclaim online_gateway in_catalog 1 5 7 leaf_item).
  assert (last (stack_of
            (exec (handle_back_action (T := cpython_fragment) online_gateway 1)
               (exec (handle_navigation_actions (T := cpython_fragment) online_gateway 1
                        (NodeId 7) false) in_catalog)) 1) = Some (NodeId 5)) as Htop.
  { apply Hclaim; [|by vm_compute..].
    exact (reachable_run (T := cpython_fragment)
             (served (login_events ++ [Text 1 "Catalog"])) initial_state
             reachable_initial). }
  vm_compute in Htop. discriminate Htop.
Qed.

(** C4, amended. The NodeId action for a node without child buttons sends
    the node's title and text with no markup and leaves the whole session as
    it was, the history stack included: the action never pushes a leaf. Back
    after the visit is therefore the step Back was before it: with two or
    more entries on the stack it removes the top entry (the menu that listed
    the leaf) and replays the entry beneath it. *)
Theorem leaf_view_changes_nothing {T : TextOps} api user_id n back s leaf :
  get_content_node api (NodeId n) = Some {| resp_node := Some leaf |} →
  buttons leaf = [] →
  handle_navigation_actions api user_id (NodeId n) back s =
    (tt, s,
     [SendMessage
        ("📌 " +:+ default EmptyString (node_title leaf) +:+ nl +:+ nl
           +:+ default EmptyString (node_text leaf))
        None]) ∧
  handle_back_action api user_id
    (exec (handle_navigation_actions api user_id (NodeId n) back) s) =
    handle_back_action api user_id s ∧
  (∀ l prev top,
     user_nav_stack s !! user_id = Some (l ++ [prev; top]) →
     handle_back_action api user_id
       (exec (handle_navigation_actions api user_id (NodeId n) back) s) =
     handle_navigation_actions api user_id prev true
       (clear_message_mode user_id (with_nav_stack <[user_id := l ++ [prev]]> s))).
Proof.
  intros Hget Hleaf.
  pose proof (leaf_view api user_id (NodeId n) back s leaf Hget Hleaf) as Hview.
  assert (exec (handle_navigation_actions api user_id (NodeId n) back) s = s) as Hexec.
  { unfold exec. simpl handle_navigation_actions. by rewrite Hview. }
  rewrite Hexec. split; [exact Hview|]. split; [done|].
  intros l prev top Hstack. by apply (back_pops_and_replays api user_id s l prev top).
Qed.

Lemma leaf_view_changes_nothing_witness :
  handle_navigation_actions (T := cpython_fragment) online_gateway 1 (NodeId 7) false
    in_catalog =
    (tt, in_catalog, [SendMessage ("📌 Item" +:+ nl +:+ nl +:+ "Description") None]).
Proof.
  exact (proj1 (leaf_view_changes_nothing (T := cpython_fragment) online_gateway 1 7
                  false in_catalog leaf_item eq_refl eq_refl)).
Defined.

(** ** Gateway failures (C7) *)

(** C7, as stated, fails: when the list of conversations cannot be fetched
    the user is told "you have no conversations", and when the messages of a
    conversation cannot be fetched, "the conversation is empty"; neither says
    that anything failed. *)
Lemma listing_failure_looks_empty :
  ¬ listing_failure_surfaced (T := cpython_fragment).
Proof.
  intros Hclaim.
  destruct (Hclaim offline_gateway at_root 1 false) as [Hlist _].
  specialize (Hlist eq_refl). vm_compute in Hlist. discriminate Hlist.
Qed.

(** C7, amended. Every failed gateway call is answered within the handler
    that made it, with a message to the user and a defined session; the
    conjuncts below are the nine calls of the program, in the order root
    fetch (twice), node fetch, login, ticket creation, the listing of
    tickets after a creation, message send, the listing of tickets, the
    listing of ticket messages. A failed root fetch, node fetch, login,
    ticket creation or message send is surfaced as a notice that the request
    failed. A failed listing is not. In the list of conversations and in a
    conversation the user sees the empty-state message, the same output as
    for an empty list. After a ticket was created the user sees the banner
    of the creation with the back/home row as the whole keyboard, again the
    same output as for an empty list. *)
Theorem gateway_failure_recovered {T : TextOps} api user_id text back s :
  (get_root_node api = None →
   reset_to_root_menu api user_id s =
     (tt, s, [SendMessage "Не удалось загрузить главное меню." None]) ∧
   reports_failure (reset_to_root_menu api user_id) s = true) ∧
  (token_missing (api_token s) = false →
   get_root_node api = None →
   show_main_menu api user_id None s =
     (tt, s,
      [SendMessage
         "Не удалось загрузить главное меню. Возможно, проблема с аутентификацией."
         None]) ∧
   reports_failure (show_main_menu api user_id None) s = true) ∧
  (∀ a, get_content_node api a = None →
   navigate_content_node api user_id a back s =
     (tt, s,
      [SendMessage "Не удалось найти информацию по этому разделу. Попробуйте позже."
         None]) ∧
   reports_failure (navigate_content_node api user_id a back) s = true) ∧
  (∀ username,
   awaiting_password s !! user_id = Some username →
   login api username (str_strip text) user_id = None →
   handle_password_input api text user_id s =
     (tt, with_awaiting_password (delete user_id) s,
      [SendMessage "Неверные учетные данные. Попробуйте снова с /start." None]) ∧
   reports_failure (handle_password_input api text user_id) s = true) ∧
  (create_ticket api user_id true (str_strip text) = None →
   handle_conversation_creation api text user_id s =
     (tt, with_creating (delete user_id) s,
      [SendMessage "Не удалось создать беседу. Попробуйте позже." None]) ∧
   reports_failure (handle_conversation_creation api text user_id) s = true) ∧
  (∀ created,
   create_ticket api user_id true (str_strip text) =
     Some {| created_ticket_id := Some created |} →
   get_user_tickets api = None ∨ get_user_tickets api = Some [] →
   handle_conversation_creation api text user_id s =
     (tt,
      with_actions
        (λ actions,
           <[normalize_text home_button_text := Home]>
             (<[normalize_text back_button_text := Back]> actions))
        (with_nav_stack (stack_append user_id ListConversations)
           (with_creating (delete user_id) s)),
      [SendMessage
         ("✅ Беседа «" +:+ str_strip text
            +:+ "» создана. Выберите её из списка, чтобы продолжить.")
         (Some [[back_button_text; home_button_text]])])) ∧
  (∀ id,
   user_ticket_id s !! user_id = Some id → id ≠ 0 →
   send_message_to_conversation api id text = None →
   handle_send_message api text user_id s =
     (tt, s, [SendMessage "Не удалось отправить сообщение. Попробуйте позже." None]) ∧
   reports_failure (handle_send_message api text user_id) s = true) ∧
  (get_user_tickets api = None ∨ get_user_tickets api = Some [] →
   show_user_conversations api user_id back s =
     (tt,
      if back then s else with_nav_stack (stack_append user_id ListConversations) s,
      [SendMessage "У вас нет бесед." None]) ∧
   reports_failure (show_user_conversations api user_id back) s = false) ∧
  (∀ id,
   get_ticket_messages api id = None ∨ get_ticket_messages api id = Some [] →
   sent (show_ticket_messages api user_id id back) s =
     [SendMessage "Беседа пуста." None;
      SendMessage "✏️ Напишите новое сообщение:"
        (Some [[back_button_text; home_button_text]])] ∧
   reports_failure (show_ticket_messages api user_id id back) s = false).
Proof.
  split; [|split; [|split; [|split; [|split; [|split; [|split; [|split]]]]]]].
  - intros H.
    assert (reset_to_root_menu api user_id s =
            (tt, s, [SendMessage "Не удалось загрузить главное меню." None])) as Hrun
      by (unfold reset_to_root_menu; by rewrite H).
    notice_sent Hrun.
  - intros Htok H.
    assert (show_main_menu api user_id None s =
            (tt, s,
             [SendMessage
                "Не удалось загрузить главное меню. Возможно, проблема с аутентификацией."
                None])) as Hrun
      by (unfold show_main_menu; by rewrite bind_gets_apply, Htok, H).
    notice_sent Hrun.
  - intros a H.
    assert (navigate_content_node api user_id a back s =
            (tt, s,
             [SendMessage
                "Не удалось найти информацию по этому разделу. Попробуйте позже."
                None])) as Hrun
      by (unfold navigate_content_node; by rewrite H).
    notice_sent Hrun.
  - intros username Hp H.
    assert (handle_password_input api text user_id s =
            (tt, with_awaiting_password (delete user_id) s,
             [SendMessage "Неверные учетные данные. Попробуйте снова с /start." None]))
      as Hrun.
    { unfold handle_password_input.
      rewrite bind_gets_apply, Hp, bind_modify_apply, H. reflexivity. }
    notice_sent Hrun.
  - intros H.
    assert (handle_conversation_creation api text user_id s =
            (tt, with_creating (delete user_id) s,
             [SendMessage "Не удалось создать беседу. Попробуйте позже." None]))
      as Hrun.
    { unfold handle_conversation_creation. rewrite bind_modify_apply, H. reflexivity. }
    notice_sent Hrun.
  - intros created Hcreated Hlist. unfold handle_conversation_creation.
    rewrite bind_modify_apply, Hcreated, bind_modify_apply.
    destruct Hlist as [->| ->]; reflexivity.
  - intros id Hid Hne H.
    assert (handle_send_message api text user_id s =
            (tt, s,
             [SendMessage "Не удалось отправить сообщение. Попробуйте позже." None]))
      as Hrun.
    { unfold handle_send_message.
      rewrite bind_gets_apply, Hid. case_decide; [done|]. by rewrite H. }
    notice_sent Hrun.
  - intros Hlist.
    assert (show_user_conversations api user_id back s =
            (tt,
             if back then s
             else with_nav_stack (stack_append user_id ListConversations) s,
             [SendMessage "У вас нет бесед." None])) as Hrun
      by (destruct Hlist as [H|H]; unfold show_user_conversations; rewrite H;
          by destruct back).
    notice_sent Hrun.
  - intros id Hlist.
    assert (sent (show_ticket_messages api user_id id back) s =
            [SendMessage "Беседа пуста." None;
             SendMessage "✏️ Напишите новое сообщение:"
               (Some [[back_button_text; home_button_text]])]) as Hrun
      by (destruct Hlist as [H|H]; unfold show_ticket_messages; rewrite H;
          by destruct back).
    split; [exact Hrun|]. unfold reports_failure. rewrite Hrun. reflexivity.
Qed.

Lemma gateway_failure_recovered_witness :
  (reset_to_root_menu (T := cpython_fragment) offline_gateway 1 at_root =
     (tt, at_root, [SendMessage "Не удалось загрузить главное меню." None]) ∧
   reports_failure (reset_to_root_menu (T := cpython_fragment) offline_gateway 1)
     at_root = true) ∧
  handle_conversation_creation (T := cpython_fragment) listing_down_gateway
    "Billing" 1 at_root =
    (tt,
     with_actions
       (λ actions,
          <[normalize_text (T := cpython_fragment) home_button_text := Home]>
            (<[normalize_text (T := cpython_fragment) back_button_text := Back]> actions))
       (with_nav_stack (stack_append 1 ListConversations)
          (with_creating (delete 1) at_root)),
     [SendMessage
        ("✅ Беседа «" +:+ @str_strip cpython_fragment "Billing"
           +:+ "» создана. Выберите её из списка, чтобы продолжить.")
        (Some [[back_button_text; home_button_text]])]).
Proof.
  split.
  - exact (proj1 (gateway_failure_recovered (T := cpython_fragment) offline_gateway 1
                    "hello" false at_root) eq_refl).
  - exact (proj1 (proj2 (proj2 (proj2 (proj2 (proj2
             (gateway_failure_recovered (T := cpython_fragment) listing_down_gateway 1
                "Billing" false at_root))))))
             0 eq_refl (or_introl eq_refl)).
Defined.

(** ** Normalization (C8) *)

(** C8, as stated, fails: the telephone sign U+2121 has no lower case, and
    its compatibility form is [TEL]. The program lower-cases first and
    normalizes last, which gives [TEL]; normalizing first and lower-casing
    last gives [tel]. *)
Lemma normalize_not_in_spec_order :
  ¬ normalize_in_spec_order (T := cpython_fragment).
Proof.
  intros Hclaim. specialize (Hclaim "℡"). vm_compute in Hclaim. discriminate Hclaim.
Qed.

(** C8, amended. [normalize] trims surrounding white space, then lower-cases,
    then takes the compatibility normal form (NFKC). Two labels resolve to
    the same entry of every label index exactly when their normalizations
    are equal, and the router then treats the two texts alike whenever the
    user is in no input mode. *)
Theorem normalize_text_order {T : TextOps} t1 t2 :
  normalize_text t1 = unicode_nfkc (str_lower (str_strip t1)) ∧
  (normalize_text t1 = normalize_text t2 ↔
   ∀ actions : gmap string nav_action,
     actions !! normalize_text t1 = actions !! normalize_text t2) ∧
  (normalize_text t1 = normalize_text t2 →
   ∀ api user_id s,
     awaiting_username s !! user_id = None →
     awaiting_password s !! user_id = None →
     creating_conversation s !! user_id = None →
     user_id ∉ waiting_for_message s →
     text_message_handler api user_id t1 s = text_message_handler api user_id t2 s).
Proof.
  split; [reflexivity|]. split; [split|].
  - intros H actions. by rewrite H.
  - intros H. specialize (H {[normalize_text t1 := Home]}).
    rewrite lookup_singleton_eq in H. symmetry in H.
    apply lookup_singleton_Some in H. by destruct H.
  - intros H api user_id s Hu Hp Hc Hw.
    unfold text_message_handler. rewrite !bind_gets_apply. unfold id.
    rewrite Hu, Hp, Hc, H.
    repeat case_decide; done.
Qed.

(** ** The content keyboard (C9) *)

(** Induction in steps of two, as [pairs_of] recurses. *)
Lemma pairs_ind {A} (P : list A → Prop) :
  P [] → (∀ a, P [a]) → (∀ a b r, P r → P (a :: b :: r)) → ∀ l, P l.
Proof.
  intros Hnil Hone Htwo l.
  assert (P l ∧ ∀ a, P (a :: l)) as [H _]; [|exact H].
  induction l as [|b l [IH1 IH2]]; [by split|].
  split; [apply IH2|]. intros a. by apply Htwo.
Qed.

Lemma concat_pairs_of {A} (l : list A) : concat (pairs_of l) = l.
Proof.
  induction l as [|a|a b r IH] using pairs_ind; simpl; [done | done |].
  by rewrite IH.
Qed.

Lemma pairs_of_rows {A} (l : list A) :
  Forall (λ row, (1 ≤ length row ≤ 2)%nat) (pairs_of l).
Proof.
  induction l as [|a|a b r IH] using pairs_ind; simpl.
  - constructor.
  - repeat constructor.
  - constructor; [simpl; lia | exact IH].
Qed.

Lemma write_all_app w1 w2 actions :
  write_all (w1 ++ w2) actions = write_all w2 (write_all w1 actions).
Proof. unfold write_all. by rewrite foldl_app. Qed.

Lemma write_all_lookup_ne w actions k :
  (∀ kv, kv ∈ w → kv.1 ≠ k) → write_all w actions !! k = actions !! k.
Proof.
  revert actions. induction w as [|[k' v'] w IH]; intros actions Hne; simpl; [done|].
  rewrite IH.
  - apply lookup_insert_ne. apply (Hne (k', v')). by left.
  - intros kv Hin. apply Hne. by right.
Qed.

(** Last write wins. *)
Lemma write_all_lookup_last w1 k v w2 actions :
  (∀ kv, kv ∈ w2 → kv.1 ≠ k) →
  write_all (w1 ++ (k, v) :: w2) actions !! k = Some v.
Proof.
  intros Hne. rewrite write_all_app. simpl.
  rewrite write_all_lookup_ne by done. apply lookup_insert_eq.
Qed.

Section Keyboard.
Context {T : TextOps}.

Lemma keyboard_rows_actions count bs :
  ∀ i markup row actions,
    (keyboard_rows count i bs (markup, row, actions)).2 =
    write_all (index_writes bs) actions.
Proof.
  induction bs as [|b bs IH]; intros i markup row actions; [done|].
  simpl. unfold index_writes. simpl. fold (index_writes bs).
  destruct (next_node_id b) as [n|]; simpl; [|apply IH].
  case_decide; apply IH.
Qed.

Lemma keyboard_rows_markup count bs :
  ∀ i markup row actions,
    (i + length bs = count)%nat →
    (length row ≤ 1)%nat →
    (bs = [] → row = []) →
    (∀ b, last bs = Some b → is_Some (next_node_id b)) →
    (keyboard_rows count i bs (markup, row, actions)).1 =
    (markup ++ pairs_of (row ++ linked_labels bs), []).
Proof.
  induction bs as [|b bs IH]; intros i markup row actions Hcount Hrow Hnil Hlast.
  { rewrite Hnil by done. simpl. by rewrite app_nil_r. }
  assert (bs ≠ [] → ∀ b', last bs = Some b' → is_Some (next_node_id b')) as Hlast'.
  { intros Hne b' Hb'. apply Hlast. destruct bs; [done|]. by rewrite last_cons_cons. }
  simpl in Hcount. simpl. unfold linked_labels. simpl. fold (linked_labels bs).
  destruct (next_node_id b) as [n|] eqn:Hn; simpl.
  - case_decide as Hflush.
    + rewrite IH; [|lia|simpl; lia|done|].
      * destruct row as [|x [|y row]]; simpl in *; [|by rewrite <- app_assoc|lia].
        destruct Hflush as [?|Hi]; [lia|].
        destruct bs; [|simpl in *; lia]. by rewrite <- app_assoc.
      * destruct bs; [by intros ? [=]|by apply Hlast'].
    + destruct row as [|x row]; [|exfalso; apply Hflush; left;
        destruct row; simpl in *; [done|lia]].
      assert (bs ≠ []) as Hne.
      { intros ->. apply Hflush. right. simpl in *. lia. }
      rewrite IH; [done|lia|simpl; lia|done|by apply Hlast'].
  - assert (bs ≠ []) as Hne.
    { intros ->. destruct (Hlast b eq_refl) as [? ?]. congruence. }
    rewrite IH; [done|lia|done|done|by apply Hlast'].
Qed.

Lemma make_keyboard_run a node is_root s :
  make_keyboard a node is_root s =
  let rows :=
    keyboard_rows (length (buttons node)) 0 (buttons node)
      ([], [], normalized_button_actions s) in
  (rows.1.1 ++ fixed_rows is_root,
   with_actions (λ _, write_all (fixed_writes is_root) rows.2) s, []).
Proof.
  unfold make_keyboard. rewrite bind_gets_apply. simpl.
  destruct (keyboard_rows _ _ _ _) as [[markup row] actions].
  destruct is_root; rewrite bind_modify_apply; simpl; [done|].
  by rewrite <- app_assoc.
Qed.

End Keyboard.

(** C9, as stated, fails: a child button without [next_node_id] gets no
    control. Of the three buttons [A], [B], [C] of the sample node, [B]
    links nowhere and is not in the markup. *)
Lemma unlinked_button_not_shown :
  ¬ every_button_shown (T := cpython_fragment).
Proof.
  intros Hclaim.
  specialize (Hclaim menu_mixed false initial_state
                {| btn_text := Some "B"; next_node_id := None |}).
  assert ("B" ∈ ["A"; "C"; support_button_text; back_button_text; home_button_text])
    as Hin.
  { apply Hclaim. right. left. }
  repeat (apply elem_of_cons in Hin as [Hin|Hin]; [discriminate Hin|]).
  by apply elem_of_nil in Hin.
Qed.

(** The case the amended C9 leaves out: the row is flushed inside the test
    for [next_node_id], so when the last button fails the test the button
    waiting in the row is never added, though its index entry is written. *)
Lemma pending_button_dropped :
  result (make_keyboard (T := cpython_fragment) (NodeId 11) menu_trailing_unlinked false)
    initial_state =
    [[support_button_text]; [back_button_text; home_button_text]] ∧
  normalized_button_actions
    (exec (make_keyboard (T := cpython_fragment) (NodeId 11) menu_trailing_unlinked false)
       initial_state) !! "a" = Some (NodeId 1).
Proof. split; vm_compute; reflexivity. Qed.

(** C9, amended. For every content node whose list of child buttons does
    not end with a button that lacks [next_node_id], the markup is the labels
    of the child buttons that have one, in their order, two per row with at
    most one dangling last button, followed by the support row and, off the
    root, the back/home row; so each of these buttons appears. The index
    receives, in order, one entry per such button, from its normalized label
    to its [next_node_id], then the fixed entries; a button's entry is read
    back unless a later button or a fixed label normalizes to the same label
    (the last write wins). *)
Theorem make_keyboard_rows_and_index {T : TextOps} a node is_root s :
  (∀ b, last (buttons node) = Some b → is_Some (next_node_id b)) →
  let markup := result (make_keyboard a node is_root) s in
  let actions := normalized_button_actions (exec (make_keyboard a node is_root) s) in
  markup = pairs_of (linked_labels (buttons node)) ++ fixed_rows is_root ∧
  Forall (λ row, (1 ≤ length row ≤ 2)%nat) markup ∧
  (∀ b, b ∈ buttons node → is_Some (next_node_id b) → button_label b ∈ concat markup) ∧
  actions =
    write_all (index_writes (buttons node) ++ fixed_writes is_root)
      (normalized_button_actions s) ∧
  (∀ before b after n,
     buttons node = before ++ b :: after →
     next_node_id b = Some n →
     (∀ b', b' ∈ after → is_Some (next_node_id b') →
            normalize_text (button_label b') ≠ normalize_text (button_label b)) →
     (∀ kv, kv ∈ fixed_writes is_root → kv.1 ≠ normalize_text (button_label b)) →
     actions !! normalize_text (button_label b) = Some (NodeId n)).
Proof.
  intros Hlast. cbv zeta. unfold result, exec. rewrite make_keyboard_run. cbv zeta.
  pose proof (keyboard_rows_markup (length (buttons node)) (buttons node) 0%nat [] []
                (normalized_button_actions s) eq_refl (Nat.le_0_l 1) (λ _, eq_refl) Hlast)
    as Hrows.
  pose proof (keyboard_rows_actions (length (buttons node)) (buttons node) 0%nat [] []
                (normalized_button_actions s)) as Hacts.
  destruct (keyboard_rows _ _ _ _) as [[markup row] actions].
  cbn [fst snd] in Hrows, Hacts. injection Hrows as -> ->. subst actions.
  cbn [fst snd normalized_button_actions with_actions].
  assert (write_all (fixed_writes is_root)
            (write_all (index_writes (buttons node)) (normalized_button_actions s)) =
          write_all (index_writes (buttons node) ++ fixed_writes is_root)
            (normalized_button_actions s)) as Hall by by rewrite write_all_app.
  rewrite Hall. split; [done|]. split; [|split; [|split; [done|]]].
  - apply Forall_app. split; [apply pairs_of_rows|].
    destruct is_root; repeat constructor; simpl; lia.
  - intros b Hin [n Hn]. rewrite concat_app, concat_pairs_of.
    apply elem_of_app. left. apply list_elem_of_omap. exists b. by rewrite Hn.
  - intros before b after n Hsplit Hn Hafter Hfixed.
    rewrite Hsplit. unfold index_writes. rewrite omap_app. simpl. rewrite Hn. simpl.
    rewrite <- app_assoc. simpl. apply write_all_lookup_last.
    intros kv [Hkv|Hkv]%elem_of_app; [|by apply Hfixed].
    apply list_elem_of_omap in Hkv as (b' & Hb' & Hkv).
    destruct (next_node_id b') as [n'|] eqn:Hn'; [|done].
    injection Hkv as <-. simpl. apply Hafter; [done | by rewrite Hn'].
Qed.

Lemma make_keyboard_rows_and_index_witness :
  result (make_keyboard (T := cpython_fragment) (NodeId 5) menu_catalog false) at_root =
    [["Item"]; [support_button_text]; [back_button_text; home_button_text]].
Proof.
  refine (proj1 (make_keyboard_rows_and_index (T := cpython_fragment) (NodeId 5)
                   menu_catalog false at_root _)).
  intros b [= <-]. by eexists.
Defined.

(** ** Message-send mode (C10) *)

(** The invariant of C10: a user who is waiting for a message has an active
    ticket, in every reachable state. *)
Lemma waiting_has_ticket {T : TextOps} s user_id :
  reachable s → user_id ∈ waiting_for_message s →
  is_Some (user_ticket_id s !! user_id).
Proof. intros Hreach. apply (reachable_well_formed s Hreach). Qed.

(** Still the "no selected conversation" branch of [handle_send_message] is
    taken for a waiting user, exactly when the active ticket is number 0. *)
Lemma send_fallback_iff_ticket_zero {T : TextOps} api text user_id s :
  reachable s → user_id ∈ waiting_for_message s →
  sent (handle_send_message api text user_id) s =
    [SendMessage "Нет выбранной беседы. Выберите её из списка." None] ↔
  user_ticket_id s !! user_id = Some 0.
Proof.
  intros Hreach Hwait.
  destruct (waiting_has_ticket s user_id Hreach Hwait) as [id Hid].
  unfold handle_send_message. rewrite sent_gets_bind, Hid.
  case_decide as Hz; [by subst|].
  split; [|intros [=]; done]. intros Hsent. exfalso.
  destruct (send_message_to_conversation api id text) as [[[st|]]|];
    try discriminate Hsent.
  case_decide; discriminate Hsent.
Qed.

(** C10 on the code. The gateway lists a conversation with id 0; user 1 logs
    in, opens the support menu, the list of conversations and that
    conversation, and writes a message. The state is reachable, the user is
    waiting for a message and has the active ticket 0, and the handler
    answers "no selected conversation" without sending anything. *)
Theorem send_fallback_reached_for_ticket_zero :
  reachable (T := cpython_fragment) in_ticket_zero ∧
  1 ∈ waiting_for_message in_ticket_zero ∧
  user_ticket_id in_ticket_zero !! 1 = Some 0 ∧
  router_spec (T := cpython_fragment) in_ticket_zero 1 "hello" = ToSendMessage ∧
  text_message_handler (T := cpython_fragment) online_gateway 1 "hello" in_ticket_zero =
    (tt, in_ticket_zero,
     [SendMessage "Нет выбранной беседы. Выберите её из списка." None]).
Proof.
  assert (user_ticket_id in_ticket_zero !! 1 = Some 0) as Hid.
  { vm_compute. reflexivity. }
  assert (router_spec (T := cpython_fragment) in_ticket_zero 1 "hello" = ToSendMessage)
    as Hroute.
  { vm_compute. reflexivity. }
  split; [|split; [|split; [exact Hid|split; [exact Hroute|]]]].
  - exact (reachable_run (T := cpython_fragment)
             (served (login_events ++
                [Text 1 support_button_text; Text 1 my_conv; Text 1 "💬 First"]))
             initial_state reachable_initial).
  - apply (bool_decide_unpack (1 ∈ waiting_for_message in_ticket_zero)).
    vm_compute. exact I.
  - rewrite router_follows_priority_list, Hroute. unfold run_route.
    unfold handle_send_message. rewrite bind_gets_apply, Hid. reflexivity.
Qed.

(** * Further properties of the code *)

(** ** The login flow *)

(** A run read off its result. *)
Lemma run_parts {A} (m : Handler A) s a s' o :
  m s = (a, s', o) → exec m s = s' ∧ sent m s = o.
Proof. intros H. unfold exec, sent. by rewrite H. Qed.

Section Login.
Context {T : TextOps}.

(** The text that follows [/start] goes to the username branch. *)
Lemma text_after_start api user_id text s :
  text_message_handler api user_id text (exec (start_handler user_id) s) =
  (tt,
   with_awaiting_password <[user_id := str_strip text]>
     (with_awaiting_username (delete user_id)
        (with_awaiting_username <[user_id := true]> s)),
   [SendMessage "Введите ваш пароль:" None]).
Proof.
  change (exec (start_handler user_id) s)
    with (with_awaiting_username <[user_id := true]> s).
  unfold text_message_handler. rewrite bind_gets_apply. unfold id.
  case_decide as Hu; [reflexivity|].
  exfalso. apply Hu. simpl. by rewrite lookup_insert_eq.
Qed.

(** The text after that goes to the password branch. *)
Lemma text_after_username api user_id text s username :
  awaiting_username s !! user_id = None →
  awaiting_password s !! user_id = Some username →
  text_message_handler api user_id text s =
  match login api username (str_strip text) user_id with
  | Some data =>
      reset_to_root_menu api user_id
        (with_token (Some (token data)) (with_awaiting_password (delete user_id) s))
  | None =>
      (tt, with_awaiting_password (delete user_id) s,
       [SendMessage "Неверные учетные данные. Попробуйте снова с /start." None])
  end.
Proof.
  intros Hu Hp. unfold text_message_handler. rewrite bind_gets_apply. unfold id.
  rewrite Hu, Hp. case_decide as H1; [by destruct H1|].
  case_decide as H2; [|exfalso; apply H2; by eexists].
  unfold handle_password_input. rewrite bind_gets_apply, Hp, bind_modify_apply.
  destruct (login api username (str_strip text) user_id); [|reflexivity].
  by rewrite bind_modify_apply.
Qed.

End Login.

(** X1. [/start] supersedes every mode: whatever the session held for the
    user (message mode, ticket creation, a pending password), the text that
    follows [/start] is stored, trimmed, as the pending user name and answered
    with the password prompt; nothing else of the session changes. *)
Theorem start_supersedes_every_mode {T : TextOps} api api' user_id text s :
  let s2 := exec (handle api' (Text user_id text)) (exec (handle api (Start user_id)) s) in
  sent (handle api' (Text user_id text)) (exec (handle api (Start user_id)) s) =
    [SendMessage "Введите ваш пароль:" None] ∧
  awaiting_username s2 = delete user_id (awaiting_username s) ∧
  awaiting_password s2 = <[user_id := str_strip text]> (awaiting_password s) ∧
  user_nav_stack s2 = user_nav_stack s ∧
  waiting_for_message s2 = waiting_for_message s ∧
  user_ticket_id s2 = user_ticket_id s ∧
  creating_conversation s2 = creating_conversation s ∧
  normalized_button_actions s2 = normalized_button_actions s ∧
  api_token s2 = api_token s.
Proof.
  cbv zeta.
  change (handle api' (Text user_id text)) with (text_message_handler api' user_id text).
  change (handle api (Start user_id)) with (start_handler user_id).
  destruct (run_parts _ _ _ _ _ (text_after_start api' user_id text s)) as [-> ->].
  simpl. repeat split. by rewrite delete_insert_eq.
Qed.

(** X2. A failed login ends the flow: after [/start], a user name and a
    password the gateway rejects, the user is told to start again, both
    login flags of the user are clear, and the rest of the session is what it
    was before [/start]. *)
Theorem failed_login_clears_flags {T : TextOps} api1 api2 api3 user_id name password s :
  login api3 (str_strip name) (str_strip password) user_id = None →
  let s2 := run [(api1, Start user_id); (api2, Text user_id name)] s in
  let s3 := exec (handle api3 (Text user_id password)) s2 in
  sent (handle api3 (Text user_id password)) s2 =
    [SendMessage "Неверные учетные данные. Попробуйте снова с /start." None] ∧
  awaiting_username s3 !! user_id = None ∧
  awaiting_password s3 !! user_id = None ∧
  user_nav_stack s3 = user_nav_stack s ∧
  waiting_for_message s3 = waiting_for_message s ∧
  user_ticket_id s3 = user_ticket_id s ∧
  creating_conversation s3 = creating_conversation s ∧
  normalized_button_actions s3 = normalized_button_actions s ∧
  api_token s3 = api_token s.
Proof.
  intros Hlogin. cbv zeta.
  change (run [(api1, Start user_id); (api2, Text user_id name)] s)
    with (exec (text_message_handler api2 user_id name) (exec (start_handler user_id) s)).
  change (handle api3 (Text user_id password))
    with (text_message_handler api3 user_id password).
  destruct (run_parts _ _ _ _ _ (text_after_start api2 user_id name s)) as [-> _].
  pose proof (text_after_username api3 user_id password
                (with_awaiting_password <[user_id := str_strip name]>
                   (with_awaiting_username (delete user_id)
                      (with_awaiting_username <[user_id := true]> s)))
                (str_strip name)) as Hrun.
  rewrite Hlogin in Hrun.
  destruct (run_parts _ _ _ _ _ (Hrun (lookup_delete_eq _ _) (lookup_insert_eq _ _ _)))
    as [-> ->].
  simpl. repeat split; by rewrite lookup_delete_eq.
Qed.

Lemma failed_login_clears_flags_witness :
  awaiting_password
    (exec (handle (T := cpython_fragment) offline_gateway (Text 1 "wrong"))
       (run (T := cpython_fragment)
          [(online_gateway, Start 1); (online_gateway, Text 1 "alice")] at_root)) !! 1 =
    None.
Proof.
  exact (proj1 (proj2 (proj2
    (failed_login_clears_flags (T := cpython_fragment) online_gateway online_gateway
       offline_gateway 1 "alice" "wrong" at_root eq_refl)))).
Defined.

(** X3. A successful login resets navigation only: the user's stack becomes
    the root alone, the token of the answer is stored and both login flags
    are clear, but message mode, the active ticket and a pending ticket
    creation are kept as they were before [/start]. *)
Theorem successful_login_resets_stack_only {T : TextOps} api1 api2 api3 user_id name
    password s data root :
  login api3 (str_strip name) (str_strip password) user_id = Some data →
  get_root_node api3 = Some root →
  let s2 := run [(api1, Start user_id); (api2, Text user_id name)] s in
  let s3 := exec (handle api3 (Text user_id password)) s2 in
  user_nav_stack s3 = <[user_id := [NodeId (node_id root)]]> (user_nav_stack s) ∧
  api_token s3 = Some (token data) ∧
  awaiting_username s3 !! user_id = None ∧
  awaiting_password s3 !! user_id = None ∧
  waiting_for_message s3 = waiting_for_message s ∧
  user_ticket_id s3 = user_ticket_id s ∧
  creating_conversation s3 = creating_conversation s.
Proof.
  intros Hlogin Hroot. cbv zeta.
  change (run [(api1, Start user_id); (api2, Text user_id name)] s)
    with (exec (text_message_handler api2 user_id name) (exec (start_handler user_id) s)).
  change (handle api3 (Text user_id password))
    with (text_message_handler api3 user_id password).
  destruct (run_parts _ _ _ _ _ (text_after_start api2 user_id name s)) as [-> _].
  pose proof (text_after_username api3 user_id password
                (with_awaiting_password <[user_id := str_strip name]>
                   (with_awaiting_username (delete user_id)
                      (with_awaiting_username <[user_id := true]> s)))
                (str_strip name) (lookup_delete_eq _ _) (lookup_insert_eq _ _ _)) as Hrun.
  rewrite Hlogin in Hrun. unfold exec. rewrite Hrun.
  match goal with |- context [reset_to_root_menu api3 user_id ?s0] =>
    change ((reset_to_root_menu api3 user_id s0).1.2)
      with (exec (reset_to_root_menu api3 user_id) s0);
    destruct (frame_fields _ _ (reset_to_root_menu_exec api3 user_id s0))
      as (Hnav & Hwait & Hticket & Hcreate & Hau & Hap & Htok)
  end.
  rewrite Hnav, Hwait, Hticket, Hcreate, Hau, Hap, Htok.
  unfold reset_nav. rewrite Hroot. simpl.
  repeat split; by rewrite lookup_delete_eq.
Qed.

Lemma successful_login_resets_stack_only_witness :
  user_ticket_id
    (exec (handle (T := cpython_fragment) online_gateway (Text 1 "secret"))
       (run (T := cpython_fragment)
          [(online_gateway, Start 1); (online_gateway, Text 1 "alice")]
          in_ticket_zero)) =
    user_ticket_id in_ticket_zero.
Proof.
  exact (proj1 (proj2 (proj2 (proj2 (proj2 (proj2
    (successful_login_resets_stack_only (T := cpython_fragment) online_gateway
       online_gateway online_gateway 1 "alice" "secret" in_ticket_zero
       {| token := "secret-token" |} menu_root eq_refl eq_refl))))))).
Defined.

(** ** Steps of one user *)

Lemma same_for_refl v s : same_for v s s.
Proof. by repeat split. Qed.

Lemma same_for_trans v s1 s2 s3 : same_for v s1 s2 → same_for v s2 s3 → same_for v s1 s3.
Proof.
  intros (a1 & a2 & a3 & a4 & a5 & a6) (b1 & b2 & b3 & b4 & b5 & b6).
  repeat split; try congruence; intros ?; [by apply a2, b2 | by apply b2, a2].
Qed.

Lemma user_step_refl u s : user_step u s s.
Proof. split; [intros; apply same_for_refl | apply rtc_refl]. Qed.

Lemma user_step_trans u s1 s2 s3 : user_step u s1 s2 → user_step u s2 s3 → user_step u s1 s3.
Proof.
  intros [H1 R1] [H2 R2]. split.
  - intros v Hv. eapply same_for_trans; eauto.
  - by etrans.
Qed.

Lemma user_step_frame u s s' : forget_actions s' = forget_actions s → user_step u s s'.
Proof.
  intros H. destruct (frame_fields _ _ H) as (Hnav & Hwait & Hticket & Hc & Hau & Hap & _).
  split.
  - intros v _. unfold same_for. by rewrite Hnav, Hwait, Hticket, Hc, Hau, Hap.
  - unfold stack_of. rewrite Hnav. apply rtc_refl.
Qed.

(** A write under the user's own key, the stack apart, is a step. *)
Lemma user_step_flags u s s' :
  user_nav_stack s' = user_nav_stack s →
  (∀ v, v ≠ u → same_for v s s') → user_step u s s'.
Proof. intros Hnav H. split; [done|]. unfold stack_of. rewrite Hnav. apply rtc_refl. Qed.

Lemma user_step_waiting_add u s : user_step u s (with_waiting (λ w, {[u]} ∪ w) s).
Proof. own_key_write user_step_flags. Qed.

Lemma user_step_ticket_set u id s : user_step u s (with_ticket_id <[u := id]> s).
Proof. own_key_write user_step_flags. Qed.

Lemma user_step_clear u s : user_step u s (clear_message_mode u s).
Proof. own_key_write user_step_flags. Qed.

Lemma user_step_creating_set u b s : user_step u s (with_creating <[u := b]> s).
Proof. own_key_write user_step_flags. Qed.

Lemma user_step_creating_delete u s : user_step u s (with_creating (delete u) s).
Proof. own_key_write user_step_flags. Qed.

Lemma user_step_username_set u b s : user_step u s (with_awaiting_username <[u := b]> s).
Proof. own_key_write user_step_flags. Qed.

Lemma user_step_username_delete u s : user_step u s (with_awaiting_username (delete u) s).
Proof. own_key_write user_step_flags. Qed.

Lemma user_step_password_set u p s : user_step u s (with_awaiting_password <[u := p]> s).
Proof. own_key_write user_step_flags. Qed.

Lemma user_step_password_delete u s : user_step u s (with_awaiting_password (delete u) s).
Proof. own_key_write user_step_flags. Qed.

Lemma user_step_token u t s : user_step u s (with_token t s).
Proof. own_key_write user_step_flags. Qed.

Lemma user_step_stack u l' s :
  stack_move (stack_of s u) l' → user_step u s (with_nav_stack <[u := l']> s).
Proof.
  intros Hmove. split.
  - intros v Hv. unfold same_for. simpl. by rewrite lookup_insert_ne.
  - unfold stack_of at 2. simpl. rewrite lookup_insert_eq. simpl. by apply rtc_once.
Qed.

Lemma user_step_append u e s :
  is_view e = true → user_step u s (with_nav_stack (stack_append u e) s).
Proof. intros He. apply user_step_stack. by constructor. Qed.

Lemma user_step_reset_nav api u s : user_step u s (reset_nav api u s).
Proof.
  unfold reset_nav. destruct (get_root_node api); [|apply user_step_refl].
  apply user_step_stack. constructor.
Qed.

Section UserSteps.
Context {T : TextOps} (api : gateway).

Lemma user_step_reset_to_root_menu u s : user_step u s (exec (reset_to_root_menu api u) s).
Proof.
  eapply user_step_trans; [apply (user_step_reset_nav api)|].
  apply user_step_frame, reset_to_root_menu_exec.
Qed.

Lemma user_step_navigate_content_node u a back s :
  back = true ∨ is_view a = true →
  user_step u s (exec (navigate_content_node api u a back) s).
Proof.
  intros Hview.
  destruct (navigate_content_node_exec api u a back s) as [E|[Hback E]].
  - by apply user_step_frame.
  - eapply user_step_trans; [|apply user_step_frame, E].
    apply user_step_append. destruct Hview; congruence.
Qed.

Lemma user_step_if_append u e (back : bool) s :
  is_view e = true →
  user_step u s (if back then s else with_nav_stack (stack_append u e) s).
Proof. intros He. destruct back; [apply user_step_refl | by apply user_step_append]. Qed.

Lemma user_step_handle_navigation_actions u action back s :
  user_step u s (exec (handle_navigation_actions api u action back) s).
Proof.
  destruct action; simpl.
  - apply user_step_navigate_content_node. by right.
  - eapply user_step_trans; [|apply user_step_frame, open_support_menu_exec].
    by apply user_step_if_append.
  - apply user_step_creating_set.
  - eapply user_step_trans; [|apply user_step_frame, show_user_conversations_exec].
    by apply user_step_if_append.
  - eapply user_step_trans; [|apply user_step_frame, show_ticket_messages_exec].
    eapply user_step_trans; [by apply (user_step_if_append u (Ticket id) back)|].
    eapply user_step_trans; [apply user_step_ticket_set|apply user_step_waiting_add].
  - rewrite exec_gets_bind. case_decide as Hlen.
    + rewrite exec_modify_bind. fold (stack_of s u).
      eapply user_step_trans;
        [apply (user_step_stack u (removelast (stack_of s u))); by apply stack_pop|].
      destruct (last _); [|apply user_step_refl].
      apply user_step_navigate_content_node. by left.
    + apply user_step_reset_to_root_menu.
  - apply user_step_reset_to_root_menu.
Qed.

Lemma user_step_handle_back_action u s : user_step u s (exec (handle_back_action api u) s).
Proof.
  unfold handle_back_action. rewrite exec_gets_bind. case_decide as Hlen.
  - rewrite exec_modify_bind. fold (stack_of s u).
    eapply user_step_trans;
        [apply (user_step_stack u (removelast (stack_of s u))); by apply stack_pop|].
    destruct (last _); [|apply user_step_refl].
    rewrite !exec_modify_bind.
    eapply user_step_trans; [apply user_step_clear|].
    apply user_step_handle_navigation_actions.
  - rewrite !exec_modify_bind.
    eapply user_step_trans; [apply user_step_clear|].
    apply user_step_reset_to_root_menu.
Qed.

Lemma user_step_handle_home_action u s : user_step u s (exec (handle_home_action api u) s).
Proof.
  unfold handle_home_action. rewrite !exec_modify_bind.
  eapply user_step_trans; [apply user_step_clear|].
  apply user_step_reset_to_root_menu.
Qed.

Lemma user_step_handle_username_input text u s :
  user_step u s (exec (handle_username_input text u) s).
Proof.
  change (exec (handle_username_input text u) s)
    with (with_awaiting_password <[u := str_strip text]>
            (with_awaiting_username (delete u) s)).
  eapply user_step_trans; [apply user_step_username_delete|apply user_step_password_set].
Qed.

Lemma user_step_handle_password_input text u s :
  user_step u s (exec (handle_password_input api text u) s).
Proof.
  unfold handle_password_input. rewrite exec_gets_bind.
  destruct (awaiting_password s !! u); [|apply user_step_refl].
  rewrite exec_modify_bind.
  eapply user_step_trans; [apply user_step_password_delete|].
  destruct (login api _ _ _); [|apply user_step_refl].
  rewrite exec_modify_bind.
  eapply user_step_trans; [apply user_step_token|].
  apply user_step_reset_to_root_menu.
Qed.

Lemma user_step_handle_conversation_creation text u s :
  user_step u s (exec (handle_conversation_creation api text u) s).
Proof.
  unfold handle_conversation_creation. rewrite exec_modify_bind.
  eapply user_step_trans; [apply user_step_creating_delete|].
  destruct (create_ticket api _ _ _) as [[[?|]]|]; try apply user_step_refl.
  rewrite exec_modify_bind, exec_bind.
  change (exec (send_message ?t ?m) ?x) with x.
  eapply user_step_trans; [by apply (user_step_append u ListConversations)|].
  apply user_step_frame, build_user_tickets_keyboard_frame.
Qed.

Lemma user_step_text_message_handler u text s :
  user_step u s (exec (text_message_handler api u text) s).
Proof.
  unfold text_message_handler. rewrite exec_gets_bind. unfold id.
  repeat case_decide.
  - apply user_step_handle_username_input.
  - apply user_step_handle_password_input.
  - apply user_step_handle_back_action.
  - apply user_step_handle_home_action.
  - apply user_step_handle_conversation_creation.
  - apply user_step_frame, handle_send_message_frame.
  - unfold handle_navigation_or_fallback. rewrite exec_gets_bind.
    destruct (normalized_button_actions s !! normalize_text text);
      [apply user_step_handle_navigation_actions|apply user_step_refl].
Qed.

End UserSteps.

Lemma user_step_handle {T : TextOps} api ev s :
  user_step (event_user ev) s (exec (handle api ev) s).
Proof.
  destruct ev; simpl.
  - apply user_step_username_set.
  - apply user_step_text_message_handler.
Qed.

(** X4. The sessions are independent: an event of one user changes nothing
    that the store keeps for another user, neither the stack nor the
    message-mode flag, the active ticket, the pending ticket creation or the
    login flags. (The label index and the gateway token are shared.) *)
Theorem other_users_untouched {T : TextOps} api ev s v :
  v ≠ event_user ev →
  let s' := exec (handle api ev) s in
  user_nav_stack s' !! v = user_nav_stack s !! v ∧
  (v ∈ waiting_for_message s' ↔ v ∈ waiting_for_message s) ∧
  user_ticket_id s' !! v = user_ticket_id s !! v ∧
  creating_conversation s' !! v = creating_conversation s !! v ∧
  awaiting_username s' !! v = awaiting_username s !! v ∧
  awaiting_password s' !! v = awaiting_password s !! v.
Proof. intros Hv. by apply (user_step_handle api ev s). Qed.

Lemma other_users_untouched_witness :
  user_nav_stack
    (exec (handle (T := cpython_fragment) online_gateway (Text 2 home_button_text))
       in_catalog) !! 1 =
  user_nav_stack in_catalog !! 1.
Proof.
  refine (proj1 (other_users_untouched (T := cpython_fragment) online_gateway
                   (Text 2 home_button_text) in_catalog 1 _)).
  simpl. lia.
Defined.

(** ** Only views are on the stacks *)

Lemma stack_move_views l l' :
  stack_move l l' → Forall (λ a, is_view a = true) l → Forall (λ a, is_view a = true) l'.
Proof.
  intros Hmove Hl. destruct Hmove as [l e He|l r|l Hlen].
  - apply Forall_app. split; [done|]. by constructor.
  - by repeat constructor.
  - destruct (exists_last (l := l)) as (l0 & a & ->); [by intros ->; simpl in Hlen; lia|].
    rewrite removelast_last. by apply Forall_app in Hl as [H0 _].
Qed.

Lemma stack_moves_views l l' :
  rtc stack_move l l' → Forall (λ a, is_view a = true) l → Forall (λ a, is_view a = true) l'.
Proof. induction 1; [done|]. intros Hl. eauto using stack_move_views. Qed.

Lemma views_only_stack_of s u :
  views_only s → Forall (λ a, is_view a = true) (stack_of s u).
Proof.
  intros H. unfold stack_of. destruct (user_nav_stack s !! u) eqn:E; simpl; [|constructor].
  by apply (H u).
Qed.

Lemma views_only_step u s s' : user_step u s s' → views_only s → views_only s'.
Proof.
  intros [Hothers Hmoves] Hs v l Hl. destruct (decide (v = u)) as [->|Hv].
  - assert (stack_of s' u = l) as <- by (unfold stack_of; by rewrite Hl).
    eapply stack_moves_views; [done|]. by apply views_only_stack_of.
  - destruct (Hothers v Hv) as [Hnav _]. rewrite Hnav in Hl. by apply (Hs v).
Qed.

Lemma reachable_views_only {T : TextOps} s : reachable s → views_only s.
Proof.
  induction 1 as [|s api ev _ IH]; [intros u l; simpl; by rewrite lookup_empty|].
  eapply views_only_step; [apply user_step_handle|done].
Qed.

(** X5. In every reachable state a history stack holds content node ids and
    the markers of the support menu, the ticket list and an open ticket, and
    nothing else: "back", "home" and "new conversation" are never pushed. *)
Theorem stack_entries_are_views {T : TextOps} s u l a :
  reachable s → user_nav_stack s !! u = Some l → a ∈ l →
  a ≠ Back ∧ a ≠ Home ∧ a ≠ NewConversation.
Proof.
  intros Hreach Hl Ha.
  pose proof (reachable_views_only s Hreach u l Hl) as Hviews.
  rewrite Forall_forall in Hviews. specialize (Hviews a Ha).
  by destruct a.
Qed.

Lemma stack_entries_are_views_witness :
  Ticket 0 ≠ Back ∧ Ticket 0 ≠ Home ∧ Ticket 0 ≠ NewConversation.
Proof.
  refine (stack_entries_are_views (T := cpython_fragment) in_ticket_zero 1
            [NodeId 1; Support; ListConversations; Ticket 0] (Ticket 0) _ _ _).
  - exact (reachable_run (T := cpython_fragment)
             (served (login_events ++
                [Text 1 support_button_text; Text 1 my_conv; Text 1 "💬 First"]))
             initial_state reachable_initial).
  - vm_compute. reflexivity.
  - apply list_elem_of_lookup_2 with 3%nat. reflexivity.
Defined.

(** ** Node views and Back *)

Lemma sent_for_each_emit {A} (l : list A) (f : A → outgoing) s :
  sent (for_each l (λ x, emit (f x))) s = f <$> l.
Proof.
  induction l as [|x l IH]; simpl; [done|].
  rewrite sent_bind. change (exec (emit (f x)) s) with s. by rewrite IH.
Qed.

Section NodeViews.
Context {T : TextOps} (api : gateway).

Lemma sent_make_keyboard a node is_root s : sent (make_keyboard a node is_root) s = [].
Proof. unfold sent. by rewrite make_keyboard_run. Qed.

Lemma result_make_keyboard a node is_root s :
  ∃ rows, result (make_keyboard a node is_root) s = rows ++ fixed_rows is_root.
Proof. unfold result. rewrite make_keyboard_run. by eexists. Qed.

(** The push test of [navigate_content_node]: an empty stack has no top. *)
Lemma push_test (l : list nav_action) a :
  bool_decide (l = []) || negb (bool_decide (last l = Some a)) =
  negb (bool_decide (last l = Some a)).
Proof.
  destruct l as [|b l]; [done|]. rewrite (bool_decide_eq_false_2 (b :: l = [])); done.
Qed.

Lemma navigate_interior_exec u a back s node :
  get_content_node api a = Some {| resp_node := Some node |} →
  buttons node ≠ [] →
  forget_actions (exec (navigate_content_node api u a back) s) =
  forget_actions
    (if negb back && negb (bool_decide (last (stack_of s u) = Some a))
     then with_nav_stack (stack_append u a) s else s).
Proof.
  intros Hget Hbuttons. unfold navigate_content_node. rewrite Hget. simpl.
  rewrite exec_gets_bind, (bool_decide_eq_false_2 _ Hbuttons). simpl.
  rewrite push_test. fold (stack_of s u).
  step_handler. change (exec (emit ?o) ?x) with x. rewrite make_keyboard_frame.
  by destruct (negb back && _).
Qed.

Lemma navigate_interior_sent u a back s node :
  get_content_node api a = Some {| resp_node := Some node |} →
  buttons node ≠ [] →
  ∃ rows,
    sent (navigate_content_node api u a back) s =
    (SendPhoto <$> images node) ++
    [SendMessage (default "Раздел" (node_text node))
       (Some (rows ++ fixed_rows (bool_decide (user_nav_stack s !! u = Some [a]))))].
Proof.
  intros Hget Hbuttons. unfold navigate_content_node. rewrite Hget. simpl.
  rewrite sent_gets_bind, (bool_decide_eq_false_2 _ Hbuttons). simpl.
  rewrite !sent_bind, sent_make_keyboard.
  unfold send_photo. rewrite sent_for_each_emit.
  match goal with |- context [result (make_keyboard a node ?r) ?s0] =>
    destruct (result_make_keyboard a node r s0) as [rows ->]
  end.
  exists rows. by destruct (negb back && _).
Qed.

(** Back on a stack of views with two or more entries. *)
Lemma back_exec_views u s :
  views_only s → (1 < length (stack_of s u))%nat →
  forget_actions (exec (handle_back_action api u) s) =
  forget_actions
    (let base :=
       clear_message_mode u (with_nav_stack <[u := removelast (stack_of s u)]> s) in
     match last (removelast (stack_of s u)) with
     | Some (Ticket id) =>
         with_waiting (λ w, {[u]} ∪ w) (with_ticket_id <[u := id]> base)
     | _ => base
     end).
Proof.
  intros Hviews Hlen. pose proof (views_only_stack_of s u Hviews) as Hall.
  unfold handle_back_action. rewrite exec_gets_bind. fold (stack_of s u).
  case_decide; [|lia]. rewrite exec_modify_bind. cbv zeta.
  remember (stack_of s u) as l eqn:Hl.
  destruct (exists_last (l := l)) as (l0 & top & ->);
    [intros ->; simpl in Hlen; lia|].
  rewrite removelast_last.
  destruct (exists_last (l := l0)) as (l1 & prev & ->).
  { intros ->. simpl in Hlen. lia. }
  rewrite last_snoc, !exec_modify_bind.
  apply Forall_app in Hall as [Hall _]. apply Forall_app in Hall as [_ Hprev].
  apply Forall_cons in Hprev as [Hprev _].
  change (with_ticket_id (delete u) (with_waiting (λ w, w ∖ {[u]}) ?x))
    with (clear_message_mode u x).
  destruct prev; try discriminate Hprev.
  - destruct (navigate_content_node_exec api u (NodeId n) true
                (clear_message_mode u (with_nav_stack <[u := l1 ++ [NodeId n]]> s)))
      as [E|[Hb _]]; [exact E|discriminate Hb].
  - exact (open_support_menu_exec u true _).
  - exact (show_user_conversations_exec api u true _).
  - exact (show_ticket_messages_exec api u id true _).
Qed.

End NodeViews.

(** X6. In a reachable state Back on a stack of two or more entries removes
    exactly the top entry: the replay of the entry beneath pushes nothing.
    It leaves message mode, unless the entry beneath is an open ticket: then
    the user is again waiting for a message for that ticket. *)
Theorem back_pops_exactly_one {T : TextOps} api u s :
  reachable s → (1 < length (stack_of s u))%nat →
  let s' := exec (handle_back_action api u) s in
  stack_of s' u = removelast (stack_of s u) ∧
  match last (removelast (stack_of s u)) with
  | Some (Ticket id) => u ∈ waiting_for_message s' ∧ user_ticket_id s' !! u = Some id
  | _ => (u ∉ waiting_for_message s') ∧ user_ticket_id s' !! u = None
  end.
Proof.
  intros Hreach Hlen. cbv zeta.
  destruct (frame_fields _ _
              (back_exec_views api u s (reachable_views_only s Hreach) Hlen))
    as (Hnav & Hwait & Hticket & _).
  unfold stack_of at 1. rewrite Hnav, Hwait, Hticket. cbv zeta.
  assert (∀ w : gset Z, u ∈ {[u]} ∪ w) as Hin.
  { intros w. apply elem_of_union. left. by apply elem_of_singleton. }
  destruct (last (removelast (stack_of s u))) as [[]|]; simpl;
    rewrite ?lookup_insert_eq, ?lookup_delete_eq;
    (split; [done|]); split; try done; try apply discard_not_elem; apply Hin.
Qed.

Lemma back_pops_exactly_one_witness :
  stack_of (exec (handle_back_action (T := cpython_fragment) online_gateway 1)
              in_ticket_zero) 1 =
  removelast (stack_of in_ticket_zero 1).
Proof.
  refine (proj1 (back_pops_exactly_one (T := cpython_fragment) online_gateway 1
                   in_ticket_zero _ _)).
  - exact (reachable_run (T := cpython_fragment)
             (served (login_events ++
                [Text 1 support_button_text; Text 1 my_conv; Text 1 "💬 First"]))
             initial_state reachable_initial).
  - vm_compute. lia.
Defined.

(** X7. Round trip: in a reachable state where the user has a stack, opening
    a node with child buttons that is not already on top and going back at
    once gives the user the stack they had. *)
Theorem push_then_back_restores_stack {T : TextOps} api api' u n node s :
  reachable s →
  stack_of s u ≠ [] →
  last (stack_of s u) ≠ Some (NodeId n) →
  get_content_node api (NodeId n) = Some {| resp_node := Some node |} →
  buttons node ≠ [] →
  let s1 := exec (handle_navigation_actions api u (NodeId n) false) s in
  stack_of s1 u = stack_of s u ++ [NodeId n] ∧
  stack_of (exec (handle_back_action api' u) s1) u = stack_of s u.
Proof.
  intros Hreach Hne Htop Hget Hbuttons. cbv zeta. simpl handle_navigation_actions.
  pose proof (reachable_views_only s Hreach) as Hviews.
  assert (stack_of (exec (navigate_content_node api u (NodeId n) false) s) u =
          stack_of s u ++ [NodeId n]) as Hpush.
  { destruct (frame_fields _ _ (navigate_interior_exec api u (NodeId n) false s node
                                  Hget Hbuttons)) as (Hnav & _).
    unfold stack_of at 1. rewrite Hnav.
    rewrite (bool_decide_eq_false_2 _ Htop). simpl.
    unfold stack_append. by rewrite lookup_insert_eq. }
  split; [exact Hpush|].
  assert (views_only (exec (navigate_content_node api u (NodeId n) false) s)) as Hviews1.
  { eapply views_only_step; [|exact Hviews].
    apply user_step_navigate_content_node. by right. }
  assert (1 < length (stack_of (exec (navigate_content_node api u (NodeId n) false) s) u))%nat
    as Hlen.
  { rewrite Hpush, length_app. simpl. destruct (stack_of s u); [done|simpl; lia]. }
  destruct (frame_fields _ _ (back_exec_views api' u _ Hviews1 Hlen)) as (Hnav & _).
  unfold stack_of at 1. rewrite Hnav. cbv zeta.
  assert (∀ x, user_nav_stack
                 match last (removelast (stack_of
                   (exec (navigate_content_node api u (NodeId n) false) s) u)) with
                 | Some (Ticket id) =>
                     with_waiting (λ w, {[u]} ∪ w) (with_ticket_id <[u := id]> x)
                 | _ => x
                 end = user_nav_stack x) as ->.
  { intros x. destruct (last (removelast _)) as [prev|]; [destruct prev|]; reflexivity. }
  simpl. rewrite lookup_insert_eq. simpl. by rewrite Hpush, removelast_last.
Qed.

Lemma push_then_back_restores_stack_witness :
  stack_of
    (exec (handle_back_action (T := cpython_fragment) online_gateway 1)
       (exec (handle_navigation_actions (T := cpython_fragment) online_gateway 1
                (NodeId 5) false) at_root)) 1 =
  stack_of at_root 1.
Proof.
  refine (proj2 (push_then_back_restores_stack (T := cpython_fragment) online_gateway
                   online_gateway 1 5 menu_catalog at_root _ _ _ eq_refl _)).
  - exact (reachable_run (T := cpython_fragment) (served login_events) initial_state
             reachable_initial).
  - vm_compute. discriminate.
  - vm_compute. discriminate.
  - discriminate.
Defined.

(** X8. The view of a node with child buttons: the images are sent in their
    order, then the text with the keyboard, which ends with the back/home
    row unless the user's stack was exactly this node; the node is appended
    to the stack unless this is a back replay or the node is already on top,
    so opening the current menu again does not grow the stack. *)
Theorem node_view_renders_images_then_menu {T : TextOps} api u n back s node :
  get_content_node api (NodeId n) = Some {| resp_node := Some node |} →
  buttons node ≠ [] →
  (∃ rows,
     sent (handle_navigation_actions api u (NodeId n) back) s =
     (SendPhoto <$> images node) ++
     [SendMessage (default "Раздел" (node_text node))
        (Some (rows ++
               [support_button_text] ::
               (if bool_decide (user_nav_stack s !! u = Some [NodeId n]) then []
                else [[back_button_text; home_button_text]])))]) ∧
  user_nav_stack (exec (handle_navigation_actions api u (NodeId n) back) s) =
    (if negb back && negb (bool_decide (last (stack_of s u) = Some (NodeId n)))
     then stack_append u (NodeId n) (user_nav_stack s)
     else user_nav_stack s).
Proof.
  intros Hget Hbuttons. simpl handle_navigation_actions. split.
  - apply (navigate_interior_sent api u (NodeId n) back s node Hget Hbuttons).
  - destruct (frame_fields _ _ (navigate_interior_exec api u (NodeId n) back s node
                                  Hget Hbuttons)) as (Hnav & _).
    rewrite Hnav. by destruct (negb back && _).
Qed.

Lemma node_view_renders_images_then_menu_witness :
  user_nav_stack
    (exec (handle_navigation_actions (T := cpython_fragment) online_gateway 1 (NodeId 5)
             false) in_catalog) =
  user_nav_stack in_catalog.
Proof.
  refine (eq_trans (proj2 (node_view_renders_images_then_menu (T := cpython_fragment)
                             online_gateway 1 5 false in_catalog menu_catalog eq_refl _))
            _).
  - discriminate.
  - vm_compute. reflexivity.
Defined.

(** ** Keyboards and the label index *)

Lemma write_all_dom w actions k :
  is_Some (write_all w actions !! k) ↔ is_Some (actions !! k) ∨ k ∈ w.*1.
Proof.
  revert actions. induction w as [|[k' v'] w IH]; intros actions; simpl.
  - rewrite elem_of_nil. tauto.
  - rewrite IH, elem_of_cons. simpl. rewrite lookup_insert.
    case_decide as Hk; [subst; split; [tauto|intros _; left; by eexists]|].
    split; [tauto|]. intros [?|[?|?]]; [tauto|congruence|tauto].
Qed.

Lemma concat_single_rows {A B} (f : A → B) (l : list A) :
  concat ((λ x, [f x]) <$> l) = f <$> l.
Proof. induction l as [|x l IH]; [done|]. rewrite !fmap_cons. simpl. by rewrite IH. Qed.

Section Builders.
Context {T : TextOps}.

(** Whatever the buttons, a label reaches the markup or waits in the row
    only after its index entry is written. *)
Lemma keyboard_rows_labels count bs :
  ∀ i markup row actions,
    concat (keyboard_rows count i bs (markup, row, actions)).1.1 ++
    (keyboard_rows count i bs (markup, row, actions)).1.2 =
    concat markup ++ row ++ linked_labels bs.
Proof.
  induction bs as [|b bs IH]; intros i markup row actions.
  { simpl. by rewrite app_nil_r. }
  simpl. unfold linked_labels. simpl. fold (linked_labels bs).
  destruct (next_node_id b) as [n|]; simpl; [|apply IH].
  change (default "Неизвестно" (btn_text b)) with (button_label b).
  case_decide; rewrite IH; [|by rewrite <- app_assoc].
  replace (markup_add markup (row ++ [button_label b]))
    with (markup ++ [row ++ [button_label b]]) by by destruct row.
  rewrite concat_app. simpl. by rewrite app_nil_r, <- !app_assoc.
Qed.

Lemma linked_label_written bs label :
  label ∈ linked_labels bs → normalize_text label ∈ (index_writes bs).*1.
Proof.
  intros (b & Hb & Hl)%list_elem_of_omap.
  destruct (next_node_id b) as [n|] eqn:Hn; [|done]. injection Hl as <-.
  apply list_elem_of_fmap. exists (normalize_text (button_label b), NodeId n).
  split; [done|]. apply list_elem_of_omap. exists b. by rewrite Hn.
Qed.

Lemma fixed_label_written is_root label :
  label ∈ concat (fixed_rows is_root) → normalize_text label ∈ (fixed_writes is_root).*1.
Proof.
  destruct is_root; simpl; rewrite !elem_of_cons, elem_of_nil; [intros [->|[]]; tauto|].
  intros [->|[->|[->|[]]]]; tauto.
Qed.

Lemma make_keyboard_shown_resolve a node is_root s label :
  label ∈ concat (result (make_keyboard a node is_root) s) →
  is_Some (normalized_button_actions (exec (make_keyboard a node is_root) s)
             !! normalize_text label).
Proof.
  unfold result, exec. rewrite make_keyboard_run. cbv zeta.
  cbn [fst snd normalized_button_actions with_actions].
  pose proof (keyboard_rows_labels (length (buttons node)) (buttons node) 0%nat [] []
                (normalized_button_actions s)) as Hlabels.
  rewrite keyboard_rows_actions.
  rewrite concat_app. intros [Hin|Hin]%elem_of_app; apply write_all_dom.
  - left. apply write_all_dom. right. apply linked_label_written.
    simpl in Hlabels. rewrite <- Hlabels. apply elem_of_app. by left.
  - right. by apply fixed_label_written.
Qed.

Lemma ticket_rows_run tickets :
  ∀ markup actions,
    ticket_rows tickets (markup, actions) =
    (markup ++ ((λ t, [ticket_label t]) <$> tickets),
     write_all (ticket_writes tickets) actions).
Proof.
  induction tickets as [|t tickets IH]; intros markup actions; simpl.
  - by rewrite app_nil_r.
  - rewrite IH. by rewrite <- app_assoc.
Qed.

Lemma build_user_tickets_keyboard_run tickets s :
  build_user_tickets_keyboard tickets s =
  (((λ t, [ticket_label t]) <$> tickets) ++ [[back_button_text; home_button_text]],
   with_actions (λ _,
     write_all
       (ticket_writes tickets ++
        [(normalize_text back_button_text, Back); (normalize_text home_button_text, Home)])
       (normalized_button_actions s)) s,
   []).
Proof.
  unfold build_user_tickets_keyboard. rewrite bind_gets_apply, ticket_rows_run.
  rewrite bind_modify_apply. by rewrite write_all_app.
Qed.

(** The entry of a ticket is read back when no later ticket and neither
    fixed label normalizes to the same key. *)
Lemma ticket_entry_read_back before t after s :
  (∀ t', t' ∈ after →
         normalize_text (ticket_label t') ≠ normalize_text (ticket_label t)) →
  normalize_text (ticket_label t) ≠ normalize_text back_button_text →
  normalize_text (ticket_label t) ≠ normalize_text home_button_text →
  normalized_button_actions
    (exec (build_user_tickets_keyboard (before ++ t :: after)) s)
    !! normalize_text (ticket_label t) = Some (Ticket (ticket_id t)).
Proof.
  intros Hafter Hback Hhome. unfold exec. rewrite build_user_tickets_keyboard_run.
  cbn [fst snd normalized_button_actions with_actions].
  unfold ticket_writes. rewrite fmap_app, fmap_cons, <- app_assoc. simpl.
  apply write_all_lookup_last.
  intros kv [Hkv|Hkv]%elem_of_app.
  - apply list_elem_of_fmap in Hkv as (t' & -> & Ht'). simpl. by apply Hafter.
  - apply elem_of_cons in Hkv as [->|Hkv]; [simpl; congruence|].
    apply elem_of_cons in Hkv as [->|Hkv]; [simpl; congruence|].
    by apply elem_of_nil in Hkv.
Qed.

End Builders.

(** X9. No dead buttons: when a keyboard is built, every label it shows has
    an entry in the label index under its normalized form. This holds for
    the content keyboard of any node, for the support menu, for the ticket
    list and for the open-ticket keyboard. *)
Theorem shown_buttons_resolve {T : TextOps} s label :
  (∀ a node is_root,
     label ∈ concat (result (make_keyboard a node is_root) s) →
     is_Some (normalized_button_actions (exec (make_keyboard a node is_root) s)
                !! normalize_text label)) ∧
  (∀ tickets,
     label ∈ concat (result (build_user_tickets_keyboard tickets) s) →
     is_Some (normalized_button_actions (exec (build_user_tickets_keyboard tickets) s)
                !! normalize_text label)) ∧
  (label ∈ concat (result build_support_menu_keyboard s) →
   is_Some (normalized_button_actions (exec build_support_menu_keyboard s)
              !! normalize_text label)) ∧
  (label ∈ concat (result build_ticket_chat_keyboard s) →
   is_Some (normalized_button_actions (exec build_ticket_chat_keyboard s)
              !! normalize_text label)).
Proof.
  split; [intros a node is_root; apply make_keyboard_shown_resolve|].
  split; [|split].
  - intros tickets. unfold result, exec. rewrite build_user_tickets_keyboard_run.
    cbn [fst snd normalized_button_actions with_actions].
    rewrite concat_app. intros [Hin|Hin]%elem_of_app; apply write_all_dom; right;
      rewrite fmap_app; apply elem_of_app.
    + left. rewrite concat_single_rows in Hin.
      apply list_elem_of_fmap in Hin as (t & -> & Ht).
      unfold ticket_writes. rewrite <- list_fmap_compose.
      apply list_elem_of_fmap. by exists t.
    + right. simpl in Hin. simpl. rewrite !elem_of_cons, elem_of_nil in *.
      destruct Hin as [->|[->|[]]]; tauto.
  - change (exec build_support_menu_keyboard s)
      with (with_actions
              (write_all
                 [(normalize_text new_conv, NewConversation);
                  (normalize_text my_conv, ListConversations);
                  (normalize_text back_button_text, Back);
                  (normalize_text home_button_text, Home)]) s).
    cbn [normalized_button_actions with_actions]. intros Hin.
    apply write_all_dom. right. simpl in Hin. simpl.
    rewrite !elem_of_cons, elem_of_nil in Hin. rewrite !elem_of_cons.
    destruct Hin as [->|[->|[->|[->|[]]]]]; tauto.
  - change (exec build_ticket_chat_keyboard s)
      with (with_actions
              (write_all
                 [(normalize_text back_button_text, Back);
                  (normalize_text home_button_text, Home)]) s).
    cbn [normalized_button_actions with_actions]. intros Hin.
    apply write_all_dom. right. simpl in Hin. simpl.
    rewrite !elem_of_cons, elem_of_nil in Hin. rewrite !elem_of_cons.
    destruct Hin as [->|[->|[]]]; tauto.
Qed.

(** X10. The ticket keyboard has one row per ticket, in the order of the
    list, each with the single button of the ticket, and ends with the
    back/home row. The button shows the ticket's name when it has one, the
    text [None] when its name is null, and its number when it has no name
    entry at all. A ticket's label resolves to that ticket unless a later
    ticket of the list, or the back or home label, has the same normalized
    label; the home label always resolves to Home. *)
Theorem ticket_keyboard_rows_and_index {T : TextOps} tickets s :
  let markup := result (build_user_tickets_keyboard tickets) s in
  let actions := normalized_button_actions (exec (build_user_tickets_keyboard tickets) s) in
  markup =
    ((λ t, [ticket_label t]) <$> tickets) ++ [[back_button_text; home_button_text]] ∧
  (∀ t, ticket_label t =
        match conversation_name t with
        | Some (Some name) => "💬 " +:+ name
        | Some None => "💬 None"
        | None => "💬 Беседа #" +:+ py_str (ticket_id t)
        end) ∧
  length markup = S (length tickets) ∧
  actions !! normalize_text home_button_text = Some Home ∧
  (∀ before t after,
     tickets = before ++ t :: after →
     (∀ t', t' ∈ after →
            normalize_text (ticket_label t') ≠ normalize_text (ticket_label t)) →
     normalize_text (ticket_label t) ≠ normalize_text back_button_text →
     normalize_text (ticket_label t) ≠ normalize_text home_button_text →
     actions !! normalize_text (ticket_label t) = Some (Ticket (ticket_id t))).
Proof.
  cbv zeta. split; [|split; [|split; [|split]]].
  - unfold result. by rewrite build_user_tickets_keyboard_run.
  - intros t. unfold ticket_label. by destruct (conversation_name t) as [[name|]|].
  - unfold result. rewrite build_user_tickets_keyboard_run. simpl.
    rewrite length_app, length_fmap. simpl. lia.
  - unfold exec. rewrite build_user_tickets_keyboard_run.
    cbn [fst snd normalized_button_actions with_actions].
    rewrite write_all_app. simpl. apply lookup_insert_eq.
  - intros before t after -> Hafter Hback Hhome. by apply ticket_entry_read_back.
Qed.

(** A ticket without a name entry, one whose name is null and one with a
    name, in one list. *)
Lemma ticket_keyboard_rows_and_index_witness :
  result
    (build_user_tickets_keyboard (T := cpython_fragment)
       [ticket_unnamed; ticket_null_name; ticket_named]) initial_state =
  [["💬 Беседа #7"]; ["💬 None"]; ["💬 Billing"]; [back_button_text; home_button_text]].
Proof.
  exact (proj1 (ticket_keyboard_rows_and_index (T := cpython_fragment)
                  [ticket_unnamed; ticket_null_name; ticket_named] initial_state)).
Defined.

(** X11. Tapping a listed ticket opens it: after the list of conversations
    is shown, a user in no input mode who sends the label of a listed ticket
    gets the view of that ticket, provided no later ticket of the list and
    neither the back nor the home label normalizes to the same label. *)
Theorem tapping_listed_ticket_opens_it {T : TextOps} api api' u back s before t after :
  get_user_tickets api = Some (before ++ t :: after) →
  (∀ t', t' ∈ after →
         normalize_text (ticket_label t') ≠ normalize_text (ticket_label t)) →
  normalize_text (ticket_label t) ≠ normalize_text back_button_text →
  normalize_text (ticket_label t) ≠ normalize_text home_button_text →
  no_input_mode s u →
  let s1 := exec (handle_navigation_actions api u ListConversations back) s in
  text_message_handler api' u (ticket_label t) s1 =
  show_ticket_messages api' u (ticket_id t) false s1.
Proof.
  intros Hget Hafter Hback Hhome (Hu & Hp & Hc & Hw). cbv zeta.
  simpl handle_navigation_actions.
  assert (no_input_mode (exec (show_user_conversations api u back) s) u)
    as (Hu1 & Hp1 & Hc1 & Hw1).
  { destruct (frame_fields _ _ (show_user_conversations_exec api u back s))
      as (_ & Hwait & _ & Hcreate & Hau & Hap & _).
    unfold no_input_mode. rewrite Hwait, Hcreate, Hau, Hap. by destruct back. }
  assert (normalized_button_actions (exec (show_user_conversations api u back) s)
            !! normalize_text (ticket_label t) = Some (Ticket (ticket_id t))) as Hidx.
  { unfold show_user_conversations. rewrite exec_bind, Hget.
    assert (∃ t0 rest, before ++ t :: after = t0 :: rest) as (t0 & rest & Hcons)
      by (destruct before; simpl; eauto).
    rewrite Hcons, exec_bind, <- Hcons.
    change (exec (send_message ?x ?m) ?y) with y.
    by apply ticket_entry_read_back. }
  unfold text_message_handler. rewrite bind_gets_apply. unfold id.
  rewrite Hu1, Hp1, Hc1.
  repeat case_decide; try done; try (by destruct (is_Some_None (A := bool)));
    try (by destruct (is_Some_None (A := string))).
  unfold handle_navigation_or_fallback. rewrite bind_gets_apply, Hidx. reflexivity.
Qed.

Lemma tapping_listed_ticket_opens_it_witness :
  let s1 := exec (handle_navigation_actions (T := cpython_fragment) online_gateway 1
                    ListConversations false) at_root in
  text_message_handler (T := cpython_fragment) online_gateway 1 "💬 First" s1 =
  show_ticket_messages (T := cpython_fragment) online_gateway 1 0 false s1.
Proof.
  refine (tapping_listed_ticket_opens_it (T := cpython_fragment) online_gateway
            online_gateway 1 false at_root []
            {| ticket_id := 0; conversation_name := Some (Some "First") |} [] eq_refl _ _ _ _).
  - intros t' Ht'. by apply elem_of_nil in Ht'.
  - vm_compute. discriminate.
  - vm_compute. discriminate.
  - repeat split; try (vm_compute; reflexivity).
    apply (bool_decide_eq_false_1 (1 ∈ waiting_for_message at_root)).
    vm_compute. reflexivity.
Defined.

(** ** The flows behind the router *)

Section Flows.
Context {T : TextOps} (api : gateway).

(** With no input mode and a text that is neither fixed label, the router
    resolves the text in the label index. *)
Lemma router_resolves u text s :
  no_input_mode s u →
  normalize_text text ≠ normalize_text back_button_text →
  normalize_text text ≠ normalize_text home_button_text →
  text_message_handler api u text s =
  handle_navigation_or_fallback api u (normalize_text text) s.
Proof.
  intros (Hu & Hp & Hc & Hw) Hback Hhome.
  unfold text_message_handler. rewrite bind_gets_apply. unfold id.
  rewrite Hu, Hp, Hc.
  repeat case_decide; try done; try (by destruct (is_Some_None (A := bool)));
    by destruct (is_Some_None (A := string)).
Qed.

Lemma send_accepted_spec r :
  send_accepted r = true ↔ r = Some {| status := Some "success" |}.
Proof.
  destruct r as [[[st|]]|]; simpl; try (split; [done|intros [=]]).
  rewrite bool_decide_eq_true. split; [by intros ->|by intros [= ->]].
Qed.

Lemma send_message_outcomes text u s :
  handle_send_message api text u s =
  match user_ticket_id s !! u with
  | Some id =>
      if decide (id = 0) then
        (tt, s, [SendMessage "Нет выбранной беседы. Выберите её из списка." None])
      else if send_accepted (send_message_to_conversation api id text) then
        (tt,
         with_actions (λ actions,
           <[normalize_text home_button_text := Home]>
             (<[normalize_text back_button_text := Back]> actions)) s,
         [SendMessage "✅ Сообщение отправлено."
            (Some [[back_button_text; home_button_text]])])
      else
        (tt, s, [SendMessage "Не удалось отправить сообщение. Попробуйте позже." None])
  | None => (tt, s, [SendMessage "Нет выбранной беседы. Выберите её из списка." None])
  end.
Proof.
  unfold handle_send_message. rewrite bind_gets_apply.
  destruct (user_ticket_id s !! u) as [id|]; [|done].
  case_decide; [done|].
  destruct (send_message_to_conversation api id text) as [[[st|]]|]; simpl; try done.
  rewrite <- decide_bool_decide. by case_decide.
Qed.

End Flows.

(** X12. A text that is no known label changes nothing: for a user in no
    input mode, a text that normalizes neither to the back nor to the home
    label and has no entry in the label index is answered with the "unknown
    command" notice, and the session is exactly what it was. *)
Theorem unknown_text_changes_nothing {T : TextOps} api u text s :
  no_input_mode s u →
  normalize_text text ≠ normalize_text back_button_text →
  normalize_text text ≠ normalize_text home_button_text →
  normalized_button_actions s !! normalize_text text = None →
  text_message_handler api u text s =
  (tt, s, [SendMessage "Неизвестная команда. Используйте кнопки." None]).
Proof.
  intros Hmode Hback Hhome Hnone. rewrite router_resolves by done.
  unfold handle_navigation_or_fallback. by rewrite bind_gets_apply, Hnone.
Qed.

Lemma unknown_text_changes_nothing_witness :
  text_message_handler (T := cpython_fragment) online_gateway 1 "what?" at_root =
  (tt, at_root, [SendMessage "Неизвестная команда. Используйте кнопки." None]).
Proof.
  refine (unknown_text_changes_nothing (T := cpython_fragment) online_gateway 1 "what?"
            at_root _ _ _ _).
  - repeat split; try (vm_compute; reflexivity).
    apply (bool_decide_eq_false_1 (1 ∈ waiting_for_message at_root)).
    vm_compute. reflexivity.
  - vm_compute. discriminate.
  - vm_compute. discriminate.
  - vm_compute. reflexivity.
Defined.

(** X13. Sending a reply keeps the user in the ticket: whatever the gateway
    answers, the handler sends one message and leaves the stack, the
    message-mode flag, the active ticket and every other flag as they were
    (only the back and home entries of the label index are rewritten). The
    confirmation is sent exactly when an active ticket other than 0 exists
    and the gateway answered the untrimmed text with status "success". *)
Theorem send_message_keeps_session {T : TextOps} api text u s :
  forget_actions (exec (handle_send_message api text u) s) = forget_actions s ∧
  length (sent (handle_send_message api text u) s) = 1%nat ∧
  (sent (handle_send_message api text u) s =
     [SendMessage "✅ Сообщение отправлено." (Some [[back_button_text; home_button_text]])]
   ↔ ∃ id, user_ticket_id s !! u = Some id ∧ id ≠ 0 ∧
           send_message_to_conversation api id text = Some {| status := Some "success" |}).
Proof.
  unfold exec, sent. rewrite send_message_outcomes.
  destruct (user_ticket_id s !! u) as [id|].
  - case_decide as Hz; [|destruct (send_accepted _) eqn:Hacc]; simpl;
      (split; [done|]); (split; [done|]); split.
    + intros [=].
    + intros (id' & [= <-] & Hne & _). done.
    + intros _. exists id. by apply send_accepted_spec in Hacc.
    + done.
    + intros [=].
    + intros (id' & [= <-] & _ & Hsend). apply send_accepted_spec in Hsend. congruence.
  - simpl. split; [done|]. split; [done|]. split; [intros [=]|].
    by intros (id & [=] & _).
Qed.

(** X14. Creating a ticket: the flag is cleared whatever the gateway
    answers, and message mode is not touched. When the gateway returns a
    ticket id the ticket-list marker is appended to the user's stack and the
    banner with the trimmed title is sent with the keyboard of the refetched
    list, or of the empty list when the refetch fails; otherwise nothing
    else changes and the retry notice is sent. *)
Theorem conversation_creation_outcomes {T : TextOps} api text u s :
  let s' := exec (handle_conversation_creation api text u) s in
  let out := sent (handle_conversation_creation api text u) s in
  creating_conversation s' = delete u (creating_conversation s) ∧
  waiting_for_message s' = waiting_for_message s ∧
  user_ticket_id s' = user_ticket_id s ∧
  match create_ticket api u true (str_strip text) with
  | Some {| created_ticket_id := Some _ |} =>
      user_nav_stack s' = stack_append u ListConversations (user_nav_stack s) ∧
      out =
        [SendMessage
           ("✅ Беседа «" +:+ str_strip text
              +:+ "» создана. Выберите её из списка, чтобы продолжить.")
           (Some (((λ t, [ticket_label t]) <$> default [] (get_user_tickets api)) ++
                  [[back_button_text; home_button_text]]))]
  | _ =>
      s' = with_creating (delete u) s ∧
      out = [SendMessage "Не удалось создать беседу. Попробуйте позже." None]
  end.
Proof.
  cbv zeta. unfold exec, sent, handle_conversation_creation.
  rewrite bind_modify_apply.
  destruct (create_ticket api u true (str_strip text)) as [[[tid|]]|]; try done.
  rewrite bind_modify_apply. unfold bind.
  rewrite build_user_tickets_keyboard_run. simpl. done.
Qed.

(** X15. A pending ticket creation survives Home: Home does not clear the
    creating flag, so when the home label is sent during a creation the next
    text is still taken as the title of the new ticket. (The back and home
    labels are assumed to normalize differently, as they do under CPython.) *)
Theorem home_keeps_pending_creation {T : TextOps} api api' u text s :
  normalize_text home_button_text ≠ normalize_text back_button_text →
  awaiting_username s !! u = None →
  awaiting_password s !! u = None →
  is_Some (creating_conversation s !! u) →
  normalize_text text ≠ normalize_text back_button_text →
  normalize_text text ≠ normalize_text home_button_text →
  let s1 := exec (text_message_handler api u home_button_text) s in
  creating_conversation s1 = creating_conversation s ∧
  text_message_handler api' u text s1 = handle_conversation_creation api' text u s1.
Proof.
  intros Hlabels Hu Hp Hc Hback Hhome. cbv zeta.
  assert (text_message_handler api u home_button_text s = handle_home_action api u s)
    as Hrun.
  { unfold text_message_handler. rewrite bind_gets_apply. unfold id. rewrite Hu, Hp.
    repeat case_decide; try done; try (by destruct (is_Some_None (A := bool)));
      by destruct (is_Some_None (A := string)). }
  unfold exec at 1 2 3. rewrite Hrun.
  fold (exec (handle_home_action api u) s).
  destruct (frame_fields _ _ (handle_home_action_exec api u s))
    as (_ & _ & _ & Hcreate & Hau & Hap & _).
  assert (creating_conversation (exec (handle_home_action api u) s) =
          creating_conversation s) as Hsame.
  { rewrite Hcreate. unfold reset_nav. by destruct (get_root_node api). }
  split; [exact Hsame|].
  unfold text_message_handler. rewrite bind_gets_apply. unfold id.
  rewrite Hsame, Hau, Hap.
  assert (awaiting_username (reset_nav api u (clear_message_mode u s)) !! u = None) as ->.
  { unfold reset_nav. by destruct (get_root_node api). }
  assert (awaiting_password (reset_nav api u (clear_message_mode u s)) !! u = None) as ->.
  { unfold reset_nav. by destruct (get_root_node api). }
  repeat case_decide; try done; try (by destruct (is_Some_None (A := bool)));
    by destruct (is_Some_None (A := string)).
Qed.

Lemma home_keeps_pending_creation_witness :
  creating_conversation
    (exec (text_message_handler (T := cpython_fragment) online_gateway 1 home_button_text)
       creating_ticket) =
  creating_conversation creating_ticket.
Proof.
  refine (proj1 (home_keeps_pending_creation (T := cpython_fragment) online_gateway
                   online_gateway 1 "Billing issue" creating_ticket _ _ _ _ _ _)).
  - vm_compute. discriminate.
  - vm_compute. reflexivity.
  - vm_compute. reflexivity.
  - exists true. vm_compute. reflexivity.
  - vm_compute. discriminate.
  - vm_compute. discriminate.
Defined.

(** X16. The ticket transcript: for a ticket with messages the handler sends
    the header with the ticket number, then one line per message in the
    order the gateway returned them, each tagged "Вы" when its sender is the
    viewing user and "Менеджер" otherwise, then the prompt with the back/home
    keyboard. *)
Theorem ticket_transcript_lines {T : TextOps} api u id back s messages :
  get_ticket_messages api id = Some messages →
  messages ≠ [] →
  sent (handle_navigation_actions api u (Ticket id) back) s =
    SendMessage ("💬 Сообщения в беседе #" +:+ py_str id +:+ ":") None ::
    (transcript_line u <$> messages) ++
    [SendMessage "✏️ Напишите новое сообщение:"
       (Some [[back_button_text; home_button_text]])].
Proof.
  intros Hget Hne. simpl handle_navigation_actions. unfold show_ticket_messages.
  rewrite Hget. destruct messages as [|m0 rest]; [done|].
  change (for_each (m0 :: rest) _)
    with (for_each (m0 :: rest) (λ m, emit (transcript_line u m))).
  rewrite !sent_bind, sent_for_each_emit. by destruct back.
Qed.

Lemma ticket_transcript_lines_witness :
  sent (handle_navigation_actions (T := cpython_fragment) chat_gateway 1 (Ticket 42) false)
    at_root =
    [SendMessage "💬 Сообщения в беседе #42:" None;
     SendMessage ("🕒 t1" +:+ nl +:+ "👤 Вы:" +:+ nl +:+ "hi") None;
     SendMessage ("🕒 t2" +:+ nl +:+ "👤 Менеджер:" +:+ nl +:+ "hello") None;
     SendMessage "✏️ Напишите новое сообщение:"
       (Some [[back_button_text; home_button_text]])].
Proof.
  refine (ticket_transcript_lines (T := cpython_fragment) chat_gateway 1 42 false at_root
            _ eq_refl _).
  discriminate.
Defined.

(** X17. [show_main_menu] called without root data: when no token is stored
    the user is told to authenticate and nothing changes; with a token and a
    failed root fetch the user is told the menu could not be loaded and
    nothing changes; with a token and a root node it does what
    [reset_to_root_menu] does, leaving the stack equal to the root alone.
    Called with root data it never writes the stack. *)
Theorem show_main_menu_without_data {T : TextOps} api u s :
  match token_missing (api_token s), get_root_node api with
  | true, _ =>
      show_main_menu api u None s =
      (tt, s,
       [SendMessage "Ошибка: пользователь не аутентифицирован. Попробуйте /start." None])
  | false, None =>
      show_main_menu api u None s =
      (tt, s,
       [SendMessage
          "Не удалось загрузить главное меню. Возможно, проблема с аутентификацией."
          None])
  | false, Some root =>
      show_main_menu api u None s = reset_to_root_menu api u s ∧
      user_nav_stack (exec (show_main_menu api u None) s) !! u =
        Some [NodeId (node_id root)]
  end ∧
  (∀ root, user_nav_stack (exec (show_main_menu api u (Some root)) s) = user_nav_stack s).
Proof.
  split.
  - destruct (token_missing (api_token s)) eqn:Htok.
    + assert (show_main_menu api u None s =
              (tt, s,
               [SendMessage "Ошибка: пользователь не аутентифицирован. Попробуйте /start."
                  None])) as Hrun.
      { unfold show_main_menu. by rewrite bind_gets_apply, Htok. }
      by destruct (get_root_node api).
    + destruct (get_root_node api) as [root|] eqn:Hroot.
      * split.
        { unfold show_main_menu, reset_to_root_menu.
          by rewrite bind_gets_apply, Htok, Hroot. }
        unfold show_main_menu. rewrite exec_gets_bind, Htok, Hroot, exec_modify_bind.
        destruct (frame_fields _ _ (render_main_menu_frame u root
                    (with_nav_stack <[u := [NodeId (node_id root)]]> s))) as (Hnav & _).
        rewrite Hnav. simpl. apply lookup_insert_eq.
      * unfold show_main_menu. by rewrite bind_gets_apply, Htok, Hroot.
  - intros root. simpl show_main_menu.
    by destruct (frame_fields _ _ (render_main_menu_frame u root s)) as (Hnav & _).
Qed.
